(** * claude_proxy.py: the sampling proxy, embedded and verified

    A shallow embedding of [src/claude_proxy.py].  Python values are an
    inductive type, dictionaries are insertion-ordered association lists,
    every effect of the handler (what it prints, what it sends to the caller,
    the one call it makes to the upstream) is an entry of a trace, and a
    raised exception is a result.  The Python runtime the program imports
    ([json], [urllib], [str], [int], the file system) is an interface the
    development is parametric in. *)

From Stdlib Require Import ZArith List String Ascii Bool Lia.
From Stdlib Require Import PrimFloat FloatOps SpecFloat DecimalString.
From Stdlib Require Uint63.
Import ListNotations.

Local Open Scope string_scope.
Local Open Scope list_scope.

Set Implicit Arguments.
Set Warnings "-inexact-float".

(** ** Python values *)

(** [bytes] and [str] are both sequences of 8-bit characters here; a [str]
    stands for its UTF-8 encoding. *)
Definition bytes := string.

(** The values [json.loads] can return and the ones [argparse] puts in the
    override store: [None], [bool], [int], [float] (binary64), [str], [list]
    and [dict] with [str] keys in insertion order. *)
Unset Elimination Schemes.
Inductive pyval : Type :=
| PNone
| PBool (b : bool)
| PInt (z : Z)
| PFloat (f : float)
| PStr (s : string)
| PList (l : list pyval)
| PDict (d : list (string * pyval)).
Set Elimination Schemes.

Definition pydict := list (string * pyval).

(** ** Dictionaries *)

Section Dict.
Variable V : Type.

(** [key in d] and the lookup behind [d.get(key)] and [d[key]]. *)
Fixpoint dict_get (k : string) (d : list (string * V)) : option V :=
  match d with
  | [] => None
  | (k', v) :: d' => if String.eqb k k' then Some v else dict_get k d'
  end.

(** [d[key] = v]: an existing key keeps its position, a new key goes last. *)
Fixpoint dict_set (k : string) (v : V) (d : list (string * V)) : list (string * V) :=
  match d with
  | [] => [(k, v)]
  | (k', v') :: d' =>
      if String.eqb k k' then (k', v) :: d' else (k', v') :: dict_set k v d'
  end.

(** [d.update(src)]. *)
Definition dict_update (d src : list (string * V)) : list (string * V) :=
  fold_left (fun acc kv => dict_set (fst kv) (snd kv) acc) src d.

Definition keys (d : list (string * V)) : list string := map fst d.
End Dict.

(** [d.get(key)], with the default [None]. *)
Definition get (d : pydict) (k : string) : pyval :=
  match dict_get k d with
  | Some v => v
  | None => PNone
  end.

(** [v is not None]. *)
Definition is_not_None (v : pyval) : bool :=
  match v with
  | PNone => false
  | _ => true
  end.

(** ** Equality and truth of values *)

(** [int == float] compares the exact values. *)
Definition int_float_eqb (z : Z) (f : float) : bool :=
  match Prim2SF f with
  | S754_zero _ => Z.eqb z 0
  | S754_finite s m e =>
      let v := if s then Z.neg m else Z.pos m in
      if Z.leb 0 e then Z.eqb z (v * 2 ^ e)
      else Z.eqb (v mod 2 ^ (- e)) 0 && Z.eqb z (v / 2 ^ (- e))
  | _ => false
  end.

(** [a == b] on these values: [bool] is an [int], numbers compare by value,
    lists pointwise, dictionaries as finite maps (order of keys ignored). *)
Fixpoint py_eq (a b : pyval) {struct a} : bool :=
  match a, b with
  | PNone, PNone => true
  | PBool x, PBool y => Bool.eqb x y
  | PBool x, PInt y => Z.eqb (Z.b2z x) y
  | PInt x, PBool y => Z.eqb x (Z.b2z y)
  | PBool x, PFloat y => int_float_eqb (Z.b2z x) y
  | PFloat x, PBool y => int_float_eqb (Z.b2z y) x
  | PInt x, PInt y => Z.eqb x y
  | PInt x, PFloat y => int_float_eqb x y
  | PFloat x, PInt y => int_float_eqb y x
  | PFloat x, PFloat y => PrimFloat.eqb x y
  | PStr x, PStr y => String.eqb x y
  | PList x, PList y =>
      (fix list_eq (l1 l2 : list pyval) {struct l1} : bool :=
         match l1, l2 with
         | [], [] => true
         | v1 :: l1', v2 :: l2' => py_eq v1 v2 && list_eq l1' l2'
         | _, _ => false
         end) x y
  | PDict x, PDict y =>
      Nat.eqb (List.length x) (List.length y)
      && (fix all_in (d : list (string * pyval)) {struct d} : bool :=
            match d with
            | [] => true
            | (k, v) :: d' =>
                match dict_get k y with
                | Some v' => py_eq v v'
                | None => false
                end && all_in d'
            end) x
  | _, _ => false
  end.

(** [a != b]. *)
Definition py_ne (a b : pyval) : bool := negb (py_eq a b).

(** [bool(v)], the test behind [or] and [if v]. *)
Definition truthy (v : pyval) : bool :=
  match v with
  | PNone => false
  | PBool b => b
  | PInt z => negb (Z.eqb z 0)
  | PFloat f => negb (PrimFloat.eqb f 0%float)
  | PStr s => negb (String.eqb s "")
  | PList l => match l with [] => false | _ => true end
  | PDict d => match d with [] => false | _ => true end
  end.

(** [a or b]. *)
Definition py_or (a b : pyval) : pyval := if truthy a then a else b.

(** ** Exceptions

    The classes the program names in an [except] clause and the ones its
    calls raise, with Python's class hierarchy. *)
Inductive exn_class : Type :=
| BaseException | KeyboardInterrupt | Exception
| ValueError | JSONDecodeError | UnicodeDecodeError
| AttributeError | KeyError | RecursionError | NotImplementedError
| OSError | URLError | TimeoutError | SSLError.

Definition exn_class_eqb (a b : exn_class) : bool :=
  match a, b with
  | BaseException, BaseException | KeyboardInterrupt, KeyboardInterrupt
  | Exception, Exception | ValueError, ValueError
  | JSONDecodeError, JSONDecodeError | UnicodeDecodeError, UnicodeDecodeError
  | AttributeError, AttributeError | KeyError, KeyError
  | RecursionError, RecursionError | NotImplementedError, NotImplementedError
  | OSError, OSError | URLError, URLError
  | TimeoutError, TimeoutError | SSLError, SSLError => true
  | _, _ => false
  end.

(** The direct base class. *)
Definition base (c : exn_class) : option exn_class :=
  match c with
  | BaseException => None
  | KeyboardInterrupt => Some BaseException
  | Exception => Some BaseException
  | ValueError | AttributeError | KeyError | RecursionError
  | NotImplementedError | OSError => Some Exception
  | JSONDecodeError | UnicodeDecodeError => Some ValueError
  | URLError | TimeoutError | SSLError => Some OSError
  end.

Fixpoint issubclass_upto (n : nat) (c c' : exn_class) : bool :=
  exn_class_eqb c c'
  || match n, base c with
     | S n', Some b => issubclass_upto n' b c'
     | _, _ => false
     end.

(** [issubclass(c, c')]; no chain of bases is longer than four. *)
Definition issubclass : exn_class -> exn_class -> bool := issubclass_upto 4.

(** A raised exception: its class and [str(e)]; [urllib.error.HTTPError], a
    subclass of [URLError], is apart, with the upstream's status, reason,
    headers and body ([e.code], [e.msg], [e.headers], [e.read()]). *)
Inductive exn : Type :=
| Exc (c : exn_class) (msg : string)
| HTTPError (code : Z) (msg : string) (hdrs : list (string * string)) (body : bytes).

(** [isinstance(e, c)], the test of [except c]. *)
Definition isinstance (e : exn) (c : exn_class) : bool :=
  match e with
  | Exc c0 _ => issubclass c0 c
  | HTTPError _ _ _ _ => issubclass URLError c
  end.

(** A call returns or raises. *)
Inductive outcome (A : Type) : Type :=
| Return (a : A)
| Raise (e : exn).
Arguments Return {A} a.
Arguments Raise {A} e.

(** ** Effects *)

(** What the program prints, by the values it interpolates. *)
Inductive line : Type :=
| LRequestParameters
| LParameter (key value : string)
| LInjected (param : string) (old_val new_val : pyval)
| LError (msg : string)
| LWarning (msg : string)
| LLoaded (config_path : string).

(** The argument of [urllib.request.urlopen]. *)
Record request : Type := Request {
  req_url : string;
  req_data : option bytes;
  req_headers : list (string * string);
  req_method : string
}.

(** One entry per effect, in program order: a printed line, the call to the
    upstream, and the calls on the connection to the caller
    ([send_response], [send_header], [end_headers], [wfile.write],
    [wfile.flush]). *)
Inductive event : Type :=
| Stdout (l : line)
| Urlopen (req : request)
| SendResponse (code : Z)
| SendHeader (key value : string)
| EndHeaders
| WfileWrite (b : bytes)
| WfileFlush.

(** A computation: the trace it leaves and how it ends. *)
Definition M (A : Type) : Type := (list event * outcome A)%type.

Definition ret {A} (a : A) : M A := ([], Return a).

Definition raise {A} (e : exn) : M A := ([], Raise e).

Definition bind {A B} (m : M A) (k : A -> M B) : M B :=
  match m with
  | (t, Return a) => let (t', r) := k a in (t ++ t', r)
  | (t, Raise e) => (t, Raise e)
  end.

Definition emit (ev : event) : M unit := ([ev], Return tt).

Definition call {A} (o : outcome A) : M A := ([], o).

(** [try: m except ...]: [clauses e] is the body of the first clause that
    matches [e], if one does.  What [m] did before raising stays done. *)
Definition try_except {A} (m : M A) (clauses : exn -> option (M A)) : M A :=
  match m with
  | (t, Raise e) =>
      match clauses e with
      | Some h => let (t', r) := h in (t ++ t', r)
      | None => (t, Raise e)
      end
  | _ => m
  end.

Declare Scope py_scope.
Delimit Scope py_scope with py.
Notation "x <- m ;; k" := (bind m (fun x => k))
  (at level 61, m at next level, right associativity) : py_scope.
Notation "m ;; k" := (bind m (fun _ => k))
  (at level 61, right associativity) : py_scope.
Local Open Scope py_scope.

(** [for x in xs: body x]. *)
Fixpoint for_each {A} (xs : list A) (body : A -> M unit) : M unit :=
  match xs with
  | [] => ret tt
  | x :: xs' => body x ;; for_each xs' body
  end.

Definition print (l : line) : M unit := emit (Stdout l).

Definition trace {A} (m : M A) : list event := fst m.
Definition result {A} (m : M A) : outcome A := snd m.

(** The change log of a run: the [(field, old_value, new_value)] records of
    the lines [Injected ...] it printed. *)
Definition change_log (t : list event) : list (string * pyval * pyval) :=
  flat_map (fun ev =>
              match ev with
              | Stdout (LInjected p o n) => [(p, o, n)]
              | _ => []
              end) t.

(** The requests a run sent to the upstream. *)
Definition upstream_calls (t : list event) : list request :=
  flat_map (fun ev => match ev with Urlopen r => [r] | _ => [] end) t.

(** An event that is neither a call to the upstream nor a change record. *)
Definition quiet (ev : event) : bool :=
  match ev with
  | Urlopen _ => false
  | Stdout (LInjected _ _ _) => false
  | _ => true
  end.

(** [for x in xs: s = body s x], the loop state threaded through. *)
Fixpoint for_fold {A S} (xs : list A) (s : S) (body : S -> A -> M S) : M S :=
  match xs with
  | [] => ret s
  | x :: xs' => s' <- body s x ;; for_fold xs' s' body
  end.

(** ** Strings *)

(** [c.lower()] on an ASCII letter; header names are compared with ASCII
    constants only. *)
Definition lower_ascii (c : ascii) : ascii :=
  let n := nat_of_ascii c in
  if Nat.leb 65 n && Nat.leb n 90 then ascii_of_nat (n + 32) else c.

Fixpoint lower (s : string) : string :=
  match s with
  | EmptyString => EmptyString
  | String c s' => String (lower_ascii c) (lower s')
  end.

(** [sub in s]. *)
Fixpoint contains (sub s : string) : bool :=
  String.prefix sub s
  || match s with
     | EmptyString => false
     | String _ s' => contains sub s'
     end.

(** [x in (a, b, ...)]. *)
Definition in_tuple (x : string) (t : list string) : bool := existsb (String.eqb x) t.

(** [s[:n]]. *)
Definition slice_to (n : nat) (s : string) : string := substring 0 n s.

(** [str(n)] for a length and for an integer. *)
Definition str_of_nat (n : nat) : string := NilZero.string_of_uint (Nat.to_uint n).
Definition str_of_Z (z : Z) : string := NilZero.string_of_int (Z.to_int z).

(** ** The Python runtime the program runs on *)

(** A path of the file system: absent, or present with what [open] and
    [read] give. *)
Inductive file : Type :=
| Missing
| Present (content : outcome string).

(** What [urlopen] hands back: the status, the headers and the successive
    results of [response.read(8192)] up to the end of the body. *)
Record response : Type := Response {
  status : Z;
  response_headers : list (string * string);
  reads : list (outcome bytes)
}.

Class Runtime : Type := {
  (** [json.loads], also behind [json.load] *)
  json_loads : bytes -> outcome pyval;
  (** [json.dumps(v).encode()] *)
  json_dumps : pyval -> bytes;
  (** [str(v)] *)
  py_str : pyval -> string;
  (** [int(s)] *)
  py_int : string -> outcome Z;
  (** [Request(...)], [ssl.create_default_context()] and [urlopen] *)
  urlopen : request -> outcome response;
  (** [Path(p).expanduser()] *)
  expanduser : string -> string;
  (** the file system at startup *)
  file_at : string -> file
}.

(** ** The program *)

Definition ANTHROPIC_API_URL : string := "https://api.anthropic.com".
Definition MAX_LOG_LENGTH : nat := 200.

(** The module's global state: the override store. *)
Record globals : Type := Globals { SAMPLING_CONFIG : pydict }.

Definition initial_globals : globals :=
  Globals [("temperature", PNone); ("top_p", PNone); ("top_k", PNone)].

(** The handler object as far as the program reads it: the request path, the
    request headers in order, and the bytes that follow them on the
    connection. *)
Record handler : Type := Handler {
  path : string;
  headers : list (string * string);
  rfile : bytes
}.

(** The command line after [parse_args]. *)
Record args : Type := Args {
  config : option string;
  temperature : option float;
  top_p : option float;
  top_k : option Z
}.

Definition type_name (v : pyval) : string :=
  match v with
  | PNone => "NoneType"
  | PBool _ => "bool"
  | PInt _ => "int"
  | PFloat _ => "float"
  | PStr _ => "str"
  | PList _ => "list"
  | PDict _ => "dict"
  end.

Definition no_attribute (v : pyval) (name : string) : exn :=
  Exc AttributeError ("'" ++ type_name v ++ "' object has no attribute '" ++ name ++ "'").

(** [v.items()]. *)
Definition items (v : pyval) : M pydict :=
  match v with
  | PDict d => ret d
  | _ => raise (no_attribute v "items")
  end.

(** [v.get(key)]. *)
Definition py_get (v : pyval) (key : string) : M pyval :=
  match v with
  | PDict d => ret (get d key)
  | _ => raise (no_attribute v "get")
  end.

(** [d[key]]. *)
Definition getitem (d : pydict) (key : string) : M pyval :=
  match dict_get key d with
  | Some v => ret v
  | None => raise (Exc KeyError ("'" ++ key ++ "'"))
  end.

(** [str(e)]. *)
Definition exn_str (e : exn) : string :=
  match e with
  | Exc _ msg => msg
  | HTTPError code msg _ _ => "HTTP Error " ++ str_of_Z code ++ ": " ++ msg
  end.

(** [self.headers.get(name)]: the first header of that name, case ignored. *)
Fixpoint headers_get (hs : list (string * string)) (name : string) : option string :=
  match hs with
  | [] => None
  | (k, v) :: hs' => if String.eqb (lower k) (lower name) then Some v else headers_get hs' name
  end.

Section Program.
Context {RT : Runtime}.

Definition truncate (value : pyval) (max_len : nat) : string :=
  let s := py_str value in
  if Nat.ltb max_len (String.length s)
  then slice_to max_len s ++ "... (" ++ str_of_nat (String.length s) ++ " chars)"
  else s.

(** [data.get(name) or data.get(alias)]. *)
Definition get_or (data : pyval) (name alias : string) : M pyval :=
  a <- py_get data name ;;
  if truthy a then ret a else py_get data alias.

Definition load_config_file (config_path : string) : M pydict :=
  let path := expanduser config_path in
  match file_at path with
  | Present content =>
      loaded <- try_except
        (text <- call content ;;
         data <- call (json_loads text) ;;
         t <- get_or data "temperature" "preferred_temperature" ;;
         p <- get_or data "top_p" "preferred_top_p" ;;
         k <- get_or data "top_k" "preferred_top_k" ;;
         ret (Some [("temperature", t); ("top_p", p); ("top_k", k)]))
        (fun e =>
           if isinstance e JSONDecodeError || isinstance e OSError
           then Some (print (LWarning (exn_str e)) ;; ret None)
           else None) ;;
      match loaded with
      | Some file_config => ret file_config
      | None => ret []
      end
  | Missing => ret []
  end.

Definition do_OPTIONS (self : handler) : M unit :=
  emit (SendResponse 200) ;;
  emit (SendHeader "Access-Control-Allow-Origin" "*") ;;
  emit (SendHeader "Access-Control-Allow-Methods" "GET, POST, OPTIONS") ;;
  emit (SendHeader "Access-Control-Allow-Headers" "*") ;;
  emit EndHeaders.

(** One turn of the loop of [_inject_sampling_params] over the three
    parameters; the state is [(data, modified)]. *)
Definition inject_param (g : globals) (st : pydict * bool) (param : string)
  : M (pydict * bool) :=
  let (data, modified) := st in
  if is_not_None (get (SAMPLING_CONFIG g) param) then
    let old_val := get data param in
    v <- getitem (SAMPLING_CONFIG g) param ;;
    let data := dict_set param v data in
    v' <- getitem (SAMPLING_CONFIG g) param ;;
    if py_ne old_val v' then
      shown <- getitem (SAMPLING_CONFIG g) param ;;
      print (LInjected param old_val shown) ;;
      ret (data, true)
    else ret (data, modified)
  else ret (data, modified).

Definition sampling_params : list string := ["temperature"; "top_p"; "top_k"].

(** Lines 154-161: the loop, from [modified = False]. *)
Definition inject_loop (g : globals) (data : pydict) : M (pydict * bool) :=
  for_fold sampling_params (data, false) (inject_param g).

Definition _inject_sampling_params (g : globals) (self : handler) (body : bytes)
  : M bytes :=
  try_except
    (data <- call (json_loads body) ;;
     print LRequestParameters ;;
     kvs <- items data ;;
     for_each kvs (fun kv => print (LParameter (fst kv) (truncate (snd kv) MAX_LOG_LENGTH))) ;;
     st <- inject_loop g kvs ;;
     if snd st then ret (json_dumps (PDict (fst st))) else ret body)
    (fun e => if isinstance e JSONDecodeError then Some (ret body) else None).
End Program.

Section Proxy.
Context {RT : Runtime}.

(** [self.rfile.read(n)]. *)
Definition rfile_read (self : handler) (n : Z) : bytes :=
  slice_to (Z.to_nat n) (rfile self).

(** Lines 89-91 of [_proxy_request]: the body that goes upstream.
    [isTargetEndpoint] is the test ["/messages" in self.path]. *)
Definition rewrite (g : globals) (self : handler) (body : option bytes)
           (isTargetEndpoint : bool) : M (option bytes) :=
  match body with
  | Some b =>
      if negb (String.eqb b "") && isTargetEndpoint
      then b' <- _inject_sampling_params g self b ;; ret (Some b')
      else ret body
  | None => ret body
  end.

(** The [for] loops that pass headers on, but for the names in [skip]. *)
Definition forward_headers (hs : list (string * string)) (skip : list string)
  : list (string * string) :=
  fold_left (fun acc kv =>
               if in_tuple (lower (fst kv)) skip then acc
               else dict_set (fst kv) (snd kv) acc) hs [].

Definition send_headers (hs : list (string * string)) (skip : list string) : M unit :=
  for_each hs (fun kv =>
                 if in_tuple (lower (fst kv)) skip then ret tt
                 else emit (SendHeader (fst kv) (snd kv))).

(** The [while True] loop over [response.read(8192)]. *)
Fixpoint stream (rs : list (outcome bytes)) : M unit :=
  match rs with
  | [] => ret tt
  | r :: rs' =>
      chunk <- call r ;;
      if String.eqb chunk "" then ret tt
      else (emit (WfileWrite chunk) ;; emit WfileFlush ;; stream rs')
  end.

(** Lines 85-87: the body, read as [Content-Length] says. *)
Definition read_body (self : handler) : M (option bytes) :=
  content_length <- call (match headers_get (headers self) "Content-Length" with
                          | Some v => py_int v
                          | None => Return 0%Z
                          end) ;;
  ret (if Z.ltb 0 content_length then Some (rfile_read self content_length) else None).

(** Lines 99-142: the [try] statement, the request sent and the answer
    relayed. *)
Definition forward (req : request) : M unit :=
  try_except
    (emit (Urlopen req) ;;
     response <- call (urlopen req) ;;
     emit (SendResponse (status response)) ;;
     send_headers (response_headers response) ["transfer-encoding"; "connection"] ;;
     emit EndHeaders ;;
     stream (reads response))
    (fun e =>
       match e with
       | HTTPError code _ hdrs content =>
           Some (emit (SendResponse code) ;;
                 send_headers hdrs ["transfer-encoding"; "connection"] ;;
                 emit EndHeaders ;;
                 emit (WfileWrite content))
       | Exc c msg =>
           if issubclass c Exception
           then Some (print (LError msg) ;;
                      emit (SendResponse 502) ;;
                      emit (SendHeader "Content-Type" "application/json") ;;
                      emit EndHeaders ;;
                      emit (WfileWrite (json_dumps (PDict [("error", PStr msg)]))))
           else None
       end).

Definition _proxy_request (g : globals) (self : handler) (method : string) : M unit :=
  let target_url := (ANTHROPIC_API_URL ++ path self)%string in
  body <- read_body self ;;
  body <- rewrite g self body (contains "/messages" (path self)) ;;
  let headers := forward_headers (headers self) ["host"; "content-length"] in
  forward (Request target_url body headers method).

Definition do_POST (g : globals) (self : handler) : M unit := _proxy_request g self "POST".

Definition do_GET (g : globals) (self : handler) : M unit := _proxy_request g self "GET".

(** The part of [main] that builds the override store the server then runs
    with: the file first, the command line over it. *)
Definition main (a : args) : M globals :=
  let store := SAMPLING_CONFIG initial_globals in
  store <- match config a with
           | Some config_path =>
               if negb (String.eqb config_path "") then
                 file_config <- load_config_file config_path ;;
                 let store := dict_update store
                                (filter (fun kv => is_not_None (snd kv)) file_config) in
                 print (LLoaded config_path) ;;
                 ret store
               else ret store
           | None => ret store
           end ;;
  let store := match temperature a with
               | Some t => dict_set "temperature" (PFloat t) store
               | None => store
               end in
  let store := match top_p a with
               | Some p => dict_set "top_p" (PFloat p) store
               | None => store
               end in
  let store := match top_k a with
               | Some k => dict_set "top_k" (PInt k) store
               | None => store
               end in
  ret (Globals store).
End Proxy.

(** ** One turn of the loop, as the specification words it

    Two definitions that follow the specification, for the loop to be
    compared with. *)

(** The record to log for [param], if there is one: the override is set and
    differs from the value the body has. *)
Definition change_of (g : globals) (data : pydict) (param : string)
  : list (string * pyval * pyval) :=
  if is_not_None (get (SAMPLING_CONFIG g) param)
     && py_ne (get data param) (get (SAMPLING_CONFIG g) param)
  then [(param, get data param, get (SAMPLING_CONFIG g) param)]
  else [].

(** The assignment to make for [param], if there is one: the override is set. *)
Definition assign (g : globals) (data : pydict) (param : string) : pydict :=
  if is_not_None (get (SAMPLING_CONFIG g) param)
  then dict_set param (get (SAMPLING_CONFIG g) param) data
  else data.

(** ** An executable runtime

    An instance of the interface that computes, to run the program on
    concrete requests.  The reader takes JSON over ASCII text with no escape
    sequence and no exponent, and raises [NotImplementedError] on other
    input; the writer, [str] and [int] are those of Python on the values the
    reader gives.  The theorems on the program hold for every runtime; this
    one serves where a run is shown. *)
Module Mini.

Inductive parsed (A : Type) : Type :=
| Ok (a : A) (rest : string)
| Bad
| Unsupported.
Arguments Ok {A} a rest.
Arguments Bad {A}.
Arguments Unsupported {A}.

Definition is_ws (n : nat) : bool :=
  Nat.eqb n 32 || Nat.eqb n 9 || Nat.eqb n 10 || Nat.eqb n 13.

Definition is_digit (n : nat) : bool := Nat.leb 48 n && Nat.leb n 57.

Definition in_fragment (c : ascii) : bool :=
  let n := nat_of_ascii c in
  is_ws n || (Nat.leb 32 n && Nat.leb n 126).

Fixpoint all_chars (p : ascii -> bool) (s : string) : bool :=
  match s with
  | EmptyString => true
  | String c s' => p c && all_chars p s'
  end.

Fixpoint skip_ws (s : string) : string :=
  match s with
  | String c s' => if is_ws (nat_of_ascii c) then skip_ws s' else s
  | EmptyString => s
  end.

(** The longest prefix of digits, as a number with its length, and the rest. *)
Fixpoint digits (s : string) (acc : Z) (len : nat) : Z * nat * string :=
  match s with
  | String c s' =>
      let n := nat_of_ascii c in
      if is_digit n then digits s' (10 * acc + Z.of_nat (n - 48))%Z (S len)
      else (acc, len, s)
  | EmptyString => (acc, len, s)
  end.

Definition starts_with_digit (s : string) : bool :=
  match s with
  | String c _ => is_digit (nat_of_ascii c)
  | EmptyString => false
  end.

Definition float_of_Z (z : Z) : float := PrimFloat.of_uint63 (Uint63.of_Z z).

(** A number, the sign already read: a zero or a digit string with no
    leading zero, then maybe a point and digits.  A fraction is taken when
    numerator and denominator are exact floats, so that one division rounds
    as [float] does; an integer is taken up to the length [int] accepts. *)
Definition number (neg : bool) (s : string) : parsed pyval :=
  let int_part :=
    match s with
    | String "0" s' => (0%Z, 1%nat, s')
    | _ => digits s 0%Z 0%nat
    end in
  let '(i, ilen, rest) := int_part in
  match ilen with
  | O => Bad
  | _ =>
      if Nat.ltb 4300 ilen then Unsupported else
      let exponent_follows (r : string) :=
        match r with
        | String c r' =>
            (Ascii.eqb c "e" || Ascii.eqb c "E")
            && (starts_with_digit r'
                || match r' with
                   | String c' r'' =>
                       (Ascii.eqb c' "+" || Ascii.eqb c' "-") && starts_with_digit r''
                   | EmptyString => false
                   end)
        | EmptyString => false
        end in
      match rest with
      | String "." rest' =>
          if starts_with_digit rest' then
            let '(m, len, rest'') := digits rest' i 0%nat in
            if exponent_follows rest'' then Unsupported
            else if (m <? 2 ^ 53)%Z && Nat.leb len 18 then
              let f := PrimFloat.div (float_of_Z m) (float_of_Z (10 ^ Z.of_nat len)) in
              Ok (PFloat (if neg then PrimFloat.opp f else f)) rest''
            else Unsupported
          else Ok (PInt (if neg then - i else i)%Z) rest
      | _ =>
          if exponent_follows rest then Unsupported
          else Ok (PInt (if neg then - i else i)%Z) rest
      end
  end.

(** The characters of a string up to the closing quote. *)
Fixpoint chars (s : string) : parsed string :=
  match s with
  | EmptyString => Bad
  | String c s' =>
      let n := nat_of_ascii c in
      if Nat.eqb n 34 then Ok EmptyString s'
      else if Nat.eqb n 92 then Unsupported
      else if Nat.ltb n 32 then Bad
      else match chars s' with
           | Ok t rest => Ok (String c t) rest
           | Bad => Bad
           | Unsupported => Unsupported
           end
  end.

Definition literal (word : string) (v : pyval) (s : string) : option (parsed pyval) :=
  if String.prefix word s
  then Some (Ok v (substring (String.length word) (String.length s) s))
  else None.

Fixpoint value (fuel : nat) (s : string) {struct fuel} : parsed pyval :=
  match fuel with
  | O => Unsupported
  | S fuel' =>
      match s with
      | EmptyString => Bad
      | String c s' =>
          let n := nat_of_ascii c in
          if Nat.eqb n 34 then
            match chars s' with
            | Ok t rest => Ok (PStr t) rest
            | Bad => Bad
            | Unsupported => Unsupported
            end
          else if Nat.eqb n 91 then
            match skip_ws s' with
            | String "]" rest => Ok (PList []) rest
            | s'' => elements fuel' s'' []
            end
          else if Nat.eqb n 123 then
            match skip_ws s' with
            | String "}" rest => Ok (PDict []) rest
            | s'' => members fuel' s'' []
            end
          else if Nat.eqb n 45 then
            if String.prefix "Infinity" s' then Unsupported else number true s'
          else if is_digit n then number false s
          else if String.prefix "NaN" s || String.prefix "Infinity" s then Unsupported
          else match literal "null" PNone s with
               | Some r => r
               | None =>
                   match literal "true" (PBool true) s with
                   | Some r => r
                   | None =>
                       match literal "false" (PBool false) s with
                       | Some r => r
                       | None => Bad
                       end
                   end
               end
      end
  end
with elements (fuel : nat) (s : string) (acc : list pyval) {struct fuel} : parsed pyval :=
  match fuel with
  | O => Unsupported
  | S fuel' =>
      match value fuel' s with
      | Ok v rest =>
          match skip_ws rest with
          | String "," rest' => elements fuel' (skip_ws rest') (acc ++ [v])
          | String "]" rest' => Ok (PList (acc ++ [v])) rest'
          | _ => Bad
          end
      | Bad => Bad
      | Unsupported => Unsupported
      end
  end
with members (fuel : nat) (s : string) (acc : pydict) {struct fuel} : parsed pyval :=
  match fuel with
  | O => Unsupported
  | S fuel' =>
      match s with
      | String c s' =>
          if Nat.eqb (nat_of_ascii c) 34 then
            match chars s' with
            | Ok k rest =>
                match skip_ws rest with
                | String ":" rest' =>
                    match value fuel' (skip_ws rest') with
                    | Ok v rest'' =>
                        match skip_ws rest'' with
                        | String "," r => members fuel' (skip_ws r) (dict_set k v acc)
                        | String "}" r => Ok (PDict (dict_set k v acc)) r
                        | _ => Bad
                        end
                    | Bad => Bad
                    | Unsupported => Unsupported
                    end
                | _ => Bad
                end
            | Bad => Bad
            | Unsupported => Unsupported
            end
          else Bad
      | EmptyString => Bad
      end
  end.

Definition not_implemented {A} : outcome A :=
  Raise (Exc NotImplementedError "outside the fragment").

Definition loads (s : bytes) : outcome pyval :=
  if all_chars in_fragment s then
    match value (2 * String.length s + 2) (skip_ws s) with
    | Ok v rest =>
        match skip_ws rest with
        | EmptyString => Return v
        | _ => Raise (Exc JSONDecodeError "Extra data")
        end
    | Bad => Raise (Exc JSONDecodeError "Expecting value")
    | Unsupported => not_implemented
    end
  else not_implemented.

(** *** The writer *)

Local Open Scope string_scope.

Fixpoint zeros (n : nat) : string :=
  match n with
  | O => EmptyString
  | S n' => String "0" (zeros n')
  end.

(** [2 ^ x] and [10 ^ x] as fractions. *)
Definition pow_frac (b x : Z) : Z * Z :=
  if (0 <=? x)%Z then (b ^ x, 1)%Z else (1, b ^ (- x))%Z.

(** The shortest decimal [c * 10 ^ x] that rounds to the float
    [m * 2 ^ e], the nearest one if two are as short: [x] goes down from
    above the float until a multiple of [10 ^ x] falls between the
    midpoints to its two neighbours. *)
Fixpoint shortest (fuel : nat) (m : positive) (e x : Z) : Z * Z :=
  match fuel with
  | O => (Z.pos m, e)
  | S fuel' =>
      let (un, ud) := pow_frac 2 (e - 2) in
      let (tn, td) := pow_frac 10 x in
      let a := (un * td)%Z in
      let b := (tn * ud)%Z in
      let here := (4 * Z.pos m * a)%Z in
      let narrow := (Z.pos m =? 2 ^ 52)%Z && (-1074 <? e)%Z in
      let lo := ((if narrow then 4 * Z.pos m - 1 else 4 * Z.pos m - 2) * a)%Z in
      let hi := ((4 * Z.pos m + 2) * a)%Z in
      let inside (v : Z) :=
        if Z.even (Z.pos m) then (lo <=? v)%Z && (v <=? hi)%Z
        else (lo <? v)%Z && (v <? hi)%Z in
      let c := (here / b)%Z in
      let below := inside (c * b)%Z in
      let above := inside ((c + 1) * b)%Z in
      if below && above then
        if (here - c * b <=? (c + 1) * b - here)%Z then (c, x) else ((c + 1)%Z, x)
      else if below then (c, x)
      else if above then ((c + 1)%Z, x)
      else shortest fuel' m e (x - 1)
  end.

(** [repr] of a finite float that is not zero: plain notation when the
    point falls within [-4 < decpt <= 16], else with an exponent. *)
Definition repr_finite (neg : bool) (m : positive) (e : Z) : string :=
  let x0 := ((Z.log2 (Z.pos m) + e + 1) * 30103 / 100000 + 2)%Z in
  let (c, x) := shortest 40 m e x0 in
  let ds := str_of_Z c in
  let nd := String.length ds in
  let decpt := (Z.of_nat nd + x)%Z in
  let body :=
    if (decpt <=? -4)%Z || (16 <? decpt)%Z then
      let ex := (decpt - 1)%Z in
      let es := str_of_Z (Z.abs ex) in
      substring 0 1 ds
      ++ (if Nat.ltb 1 nd then "." ++ substring 1 (nd - 1) ds else "")
      ++ "e" ++ (if (ex <? 0)%Z then "-" else "+")
      ++ (if Nat.ltb (String.length es) 2 then "0" ++ es else es)
    else if (decpt <=? 0)%Z then "0." ++ zeros (Z.to_nat (- decpt)) ++ ds
    else if (Z.of_nat nd <=? decpt)%Z then ds ++ zeros (Z.to_nat decpt - nd) ++ ".0"
    else substring 0 (Z.to_nat decpt) ds ++ "."
         ++ substring (Z.to_nat decpt) (nd - Z.to_nat decpt) ds in
  (if neg then "-" else "") ++ body.

(** [repr(f)]; [json.dumps] writes the three special values its own way. *)
Definition float_repr (json : bool) (f : float) : string :=
  match Prim2SF f with
  | S754_zero s => if s then "-0.0" else "0.0"
  | S754_infinity s =>
      (if s then "-" else "") ++ (if json then "Infinity" else "inf")
  | S754_nan => if json then "NaN" else "nan"
  | S754_finite s m e => repr_finite s m e
  end.

Definition quote_char : string := String (ascii_of_nat 34) EmptyString.

Definition hex_digit (n : nat) : ascii :=
  ascii_of_nat (if Nat.ltb n 10 then 48 + n else 87 + n).

Definition hex2 (n : nat) : string :=
  String (hex_digit (n / 16)) (String (hex_digit (n mod 16)) EmptyString).

(** The characters of a string between the quotes of [json.dumps]. *)
Fixpoint escape (s : string) : string :=
  match s with
  | EmptyString => EmptyString
  | String c s' =>
      let n := nat_of_ascii c in
      (if Nat.eqb n 34 then "\" ++ quote_char
       else if Nat.eqb n 92 then "\\"
       else if Nat.eqb n 10 then "\n"
       else if Nat.eqb n 13 then "\r"
       else if Nat.eqb n 9 then "\t"
       else if Nat.eqb n 8 then "\b"
       else if Nat.eqb n 12 then "\f"
       else if Nat.ltb n 32 then "\u00" ++ hex2 n
       else String c EmptyString) ++ escape s'
  end.

Definition quoted (s : string) : string := quote_char ++ escape s ++ quote_char.

(** [json.dumps(v)] with the default separators. *)
Fixpoint dumps (v : pyval) : bytes :=
  match v with
  | PNone => "null"
  | PBool b => if b then "true" else "false"
  | PInt z => str_of_Z z
  | PFloat f => float_repr true f
  | PStr s => quoted s
  | PList l => "[" ++ String.concat ", " (map dumps l) ++ "]"
  | PDict d =>
      "{" ++ String.concat ", " (map (fun kv => quoted (fst kv) ++ ": " ++ dumps (snd kv)) d)
      ++ "}"
  end.

(** [repr] of a [str]: single quotes, unless the text has one and no
    double quote. *)
Definition str_repr (s : string) : string :=
  let q := if contains "'" s && negb (contains quote_char s) then 34 else 39 in
  let fix go (s : string) : string :=
    match s with
    | EmptyString => EmptyString
    | String c s' =>
        let n := nat_of_ascii c in
        (if Nat.eqb n q || Nat.eqb n 92 then String "\" (String c EmptyString)
         else if Nat.eqb n 10 then "\n"
         else if Nat.eqb n 13 then "\r"
         else if Nat.eqb n 9 then "\t"
         else if Nat.ltb n 32 || Nat.eqb n 127 then "\x" ++ hex2 n
         else String c EmptyString) ++ go s'
    end in
  String (ascii_of_nat q) (go s ++ String (ascii_of_nat q) EmptyString).

Fixpoint repr (v : pyval) : string :=
  match v with
  | PNone => "None"
  | PBool b => if b then "True" else "False"
  | PInt z => str_of_Z z
  | PFloat f => float_repr false f
  | PStr s => str_repr s
  | PList l => "[" ++ String.concat ", " (map repr l) ++ "]"
  | PDict d =>
      "{" ++ String.concat ", " (map (fun kv => str_repr (fst kv) ++ ": " ++ repr (snd kv)) d)
      ++ "}"
  end.

(** [str(v)]. *)
Definition str (v : pyval) : string :=
  match v with
  | PStr s => s
  | _ => repr v
  end.

(** [int(s)] on an optional sign and digits. *)
Definition int (s : string) : outcome Z :=
  let (neg, body) :=
    match s with
    | String "-" s' => (true, s')
    | String "+" s' => (false, s')
    | _ => (false, s)
    end in
  match digits body 0%Z 0%nat with
  | (n, S _, EmptyString) => Return (if neg then - n else n)%Z
  | _ => not_implemented
  end.

(** The runtime over a given upstream and file system; paths are taken not
    to start with a tilde. *)
Definition runtime (upstream : request -> outcome response) (fs : string -> file)
  : Runtime :=
  {| json_loads := loads;
     json_dumps := dumps;
     py_str := str;
     py_int := int;
     urlopen := upstream;
     expanduser := fun p => p;
     file_at := fs |}.
End Mini.

(** ** Concrete requests, stores and upstreams *)
Module Examples.

(** A JSON text written with single quotes for the double ones. *)
Fixpoint json_text (s : string) : bytes :=
  match s with
  | EmptyString => EmptyString
  | String c s' =>
      String (if Nat.eqb (nat_of_ascii c) 39 then ascii_of_nat 34 else c) (json_text s')
  end.

(** No file anywhere. *)
Definition no_files : string -> file := fun _ => Missing.

(** An upstream nobody listens on. *)
Definition refused : request -> outcome response :=
  fun _ => Raise (Exc URLError "<urlopen error [Errno 111] Connection refused>").


(** An upstream that answers 200 with a body in two chunks. *)
Definition answering : request -> outcome response :=
  fun _ => Return (Response 200
                     [("Content-Type", "application/json"); ("Transfer-Encoding", "chunked")]
                     [Return (json_text "{'id':"); Return "1}"]).

Definition offline : Runtime := Mini.runtime refused no_files.
Definition online : Runtime := Mini.runtime answering no_files.

(** The store after [-t 0.2 -k 40] and the one after [-k 40]. *)
Definition store_t_k : globals :=
  Globals [("temperature", PFloat 0.2); ("top_p", PNone); ("top_k", PInt 40)].
Definition store_k : globals :=
  Globals [("temperature", PNone); ("top_p", PNone); ("top_k", PInt 40)].

(** [POST /v1/messages] with the body of the scenario. *)
Definition messages_body : bytes := json_text "{'model':'x','temperature':1.0}".
Definition post_messages : handler :=
  Handler "/v1/messages"
          [("Host", "localhost:8080"); ("Content-Type", "application/json");
           ("Content-Length", "31")]
          messages_body.


(** [POST /v1/messages] with a JSON array as body. *)
Definition post_array : handler :=
  Handler "/v1/messages" [("Host", "localhost:8080"); ("Content-Length", "3")] "[1]".

(** [POST /v1/complete], a path that is no target, with a body. *)
Definition post_complete : handler :=
  Handler "/v1/complete" [("Host", "localhost:8080"); ("Content-Length", "17")]
          (json_text "{'temperature':1}").

(** [GET /v1/models], no body. *)
Definition get_models : handler :=
  Handler "/v1/models?limit=5" [("Host", "localhost:8080"); ("Accept", "*/*")] "".


(** A file system with one configuration file. *)
Definition one_file (name : string) (text : string) : string -> file :=
  fun p => if String.eqb p name then Present (Return text) else Missing.

(** [{"temperature": 0.0, "preferred_temperature": 0.9}]. *)
Definition zero_and_alias : string :=
  json_text "{'temperature': 0.0, 'preferred_temperature': 0.9}".

(** [{"temperature": 0.3, "preferred_temperature": 0.9}]. *)
Definition value_and_alias : string :=
  json_text "{'temperature': 0.3, 'preferred_temperature': 0.9}".

(** [{"temperature": 0.5}]. *)
Definition only_temperature : string := json_text "{'temperature': 0.5}".

End Examples.

(** ** What the caller and the upstream see of a run *)

(** The body bytes written to the caller, in order. *)
Definition written (t : list event) : bytes :=
  String.concat "" (flat_map (fun ev => match ev with WfileWrite b => [b] | _ => [] end) t).

(** An event that sends the caller no hop header of the upstream. *)
Definition no_hop_header (ev : event) : bool :=
  match ev with
  | SendHeader k _ => negb (in_tuple (lower k) ["transfer-encoding"; "connection"])
  | _ => true
  end.

(** The relay of chunks: each written, then flushed. *)
Definition relay (cs : list bytes) : list event :=
  flat_map (fun c => [WfileWrite c; WfileFlush]) cs.


(** The store the command line alone gives. *)
Definition cli_store (a : args) : pydict :=
  [("temperature", match temperature a with Some v => PFloat v | None => PNone end);
   ("top_p", match top_p a with Some v => PFloat v | None => PNone end);
   ("top_k", match top_k a with Some v => PInt v | None => PNone end)].

(** ** More requests, upstreams and files *)
Module Cases.

(** An upstream whose answer breaks off after one chunk. *)
Definition breaking_off : request -> outcome response :=
  fun _ => Return (Response 200 [("Content-Type", "text/event-stream"); ("connection", "keep-alive")]
                     [Return "data: 1"; Raise (Exc TimeoutError "timed out")]).

(** An upstream the operator interrupts. *)
Definition interrupted : request -> outcome response :=
  fun _ => Raise (Exc KeyboardInterrupt "").

(** The chunks of a body, an empty read, and what would come after. *)
Definition chunks : list bytes := ["data: 1"; "data: 2"].

(** An answer in those chunks, ended by an empty read. *)
Definition chunked : request -> outcome response :=
  fun _ => Return (Response 201 [("Transfer-Encoding", "chunked"); ("X-Request-Id", "7")]
                     (map Return chunks ++ [Return ""; Return "never read"])).

(** [int(s)] that also knows that a word of letters is no number. *)
Definition int_of_word (s : string) : outcome Z :=
  match Mini.int s with
  | Return n => Return n
  | Raise e =>
      if negb (String.eqb s "")
         && Mini.all_chars (fun c => let n := nat_of_ascii c in
                                     (Nat.leb 65 n && Nat.leb n 90)
                                     || (Nat.leb 97 n && Nat.leb n 122)) s
      then Raise (Exc ValueError ("invalid literal for int() with base 10: '" ++ s ++ "'"))
      else Raise e
  end.

(** The runtime [Examples.online] with that [int]. *)
Definition wordy : Runtime :=
  {| json_loads := Mini.loads;
     json_dumps := Mini.dumps;
     py_str := Mini.str;
     py_int := int_of_word;
     urlopen := Examples.answering;
     expanduser := fun p => p;
     file_at := Examples.no_files |}.

(** [POST /v1/messages] with a [Content-Length] that is no number. *)
Definition post_bad_length : handler :=
  Handler "/v1/messages" [("Content-Length", "abc")] "{}".

(** [POST /v1/messages] with a [content-length] larger than what follows. *)
Definition post_short : handler :=
  Handler "/v1/messages" [("content-length", "100")] "{oops".

(** [GET] on a path that has [/messages] in its query string only, with the
    body of the scenario. *)
Definition get_query : handler :=
  Handler "/v1/models?next=/messages" [("Content-Length", "31")] Examples.messages_body.

(** Headers with a repeated name and two names to drop. *)
Definition inbound_headers : list (string * string) :=
  [("HOST", "localhost:8080"); ("X-Trace", "1"); ("content-LENGTH", "2");
   ("Accept", "*/*"); ("X-Trace", "2")].


(** [{"preferred_top_k": 0, "top_p": 0.9, "preferred_top_p": 0.1}]. *)
Definition aliases : string :=
  Examples.json_text "{'preferred_top_k': 0, 'top_p': 0.9, 'preferred_top_p': 0.1}".

End Cases.

(** * Properties *)

(** ** Dictionaries *)

Section DictFacts.
Variable V : Type.
Implicit Types (d : list (string * V)) (k : string) (v : V).

Lemma dict_get_set_same d k v : dict_get k (dict_set k v d) = Some v.
Proof.
  induction d as [|[k' v'] d IH]; simpl.
  - now rewrite String.eqb_refl.
  - destruct (String.eqb k k') eqn:E; simpl; rewrite E; auto.
Qed.

Lemma dict_get_set_other d k k' v :
  k <> k' -> dict_get k' (dict_set k v d) = dict_get k' d.
Proof.
  intros Hne. induction d as [|[k0 v0] d IH]; simpl.
  - destruct (String.eqb k' k) eqn:E; auto.
    apply String.eqb_eq in E. congruence.
  - destruct (String.eqb k k0) eqn:E; simpl.
    + destruct (String.eqb k' k0) eqn:E'; auto.
      apply String.eqb_eq in E, E'. congruence.
    + now rewrite IH.
Qed.

(** Assignment keeps the order of the keys; a new key goes last. *)
Lemma keys_dict_set d k v :
  keys (dict_set k v d) =
  match dict_get k d with
  | Some _ => keys d
  | None => keys d ++ [k]
  end.
Proof.
  unfold keys. induction d as [|[k' v'] d IH]; simpl; auto.
  destruct (String.eqb k k') eqn:E; simpl; auto.
  rewrite IH. now destruct (dict_get k d).
Qed.

End DictFacts.

Lemma get_set_other (d : pydict) k k' v : k <> k' -> get (dict_set k v d) k' = get d k'.
Proof. intros H. unfold get. now rewrite dict_get_set_other. Qed.

(** ** Substrings *)

Lemma prefix_app (sub s : string) :
  String.prefix sub s = true <-> exists post, s = (sub ++ post)%string.
Proof.
  revert s. induction sub as [|c sub IH]; intros s; simpl.
  - split; [intros _; now exists s| intros _; now destruct s].
  - destruct s as [|c' s]; simpl; [split; [discriminate|intros [p Hp]; discriminate]|].
    destruct (ascii_dec c c') as [->|Hne].
    + rewrite IH. split; intros [p Hp]; exists p; [now subst|now injection Hp].
    + split; [discriminate|]. intros [p Hp]. injection Hp as Hc _. congruence.
Qed.

(** [contains] is the substring test. *)
Lemma contains_spec (sub s : string) :
  contains sub s = true <-> exists pre post, s = (pre ++ sub ++ post)%string.
Proof.
  induction s as [|c s IH]; cbn [contains].
  - rewrite orb_false_r, prefix_app. split.
    + intros [p Hp]. now exists EmptyString, p.
    + intros [pre [post H]]. destruct pre; simpl in H; [now exists post|discriminate].
  - rewrite orb_true_iff, prefix_app, IH. split.
    + intros [[p Hp]|[pre [post H]]].
      * now exists EmptyString, p.
      * exists (String c pre), post. simpl. now rewrite H.
    + intros [pre [post H]]. destruct pre as [|c' pre]; simpl in H.
      * left. now exists post.
      * right. injection H as _ H. now exists pre, post.
Qed.

(** ** Computations *)

Lemma bind_emit {B} (ev : event) (k : unit -> M B) :
  bind (emit ev) k = (ev :: fst (k tt), snd (k tt)).
Proof. unfold bind, emit. now destruct (k tt). Qed.

Lemma bind_pair {A B} (t : list event) (a : A) (k : A -> M B) :
  bind (t, Return a) k = (t ++ fst (k a), snd (k a)).
Proof. unfold bind. now destruct (k a). Qed.

Lemma change_log_app (t1 t2 : list event) :
  change_log (t1 ++ t2) = change_log t1 ++ change_log t2.
Proof. unfold change_log. apply flat_map_app. Qed.

(** Under the guard [SAMPLING_CONFIG.get(param) is not None] the subscript
    [SAMPLING_CONFIG[param]] does not raise [KeyError]. *)
Lemma getitem_guarded (d : pydict) (k : string) :
  is_not_None (get d k) = true -> getitem d k = ret (get d k).
Proof.
  unfold get, getitem. destruct (dict_get k d); simpl; [reflexivity|discriminate].
Qed.

Lemma flat_map_agree {A B} (f h : A -> list B) (l : list A) :
  (forall x, In x l -> f x = h x) -> flat_map f l = flat_map h l.
Proof.
  induction l as [|x l IH]; intros H; simpl; [reflexivity|].
  rewrite H by now left. rewrite IH; [reflexivity|].
  intros y Hy. apply H. now right.
Qed.

(** ** The loop over the three parameters *)

Section Loop.
Context {RT : Runtime}.
Variable g : globals.

Let store := SAMPLING_CONFIG g.

Lemma inject_param_eq (data : pydict) (modified : bool) (param : string) :
  inject_param g (data, modified) param =
  (map (fun r => Stdout (LInjected (fst (fst r)) (snd (fst r)) (snd r))) (change_of g data param),
   Return (assign g data param,
           modified || match change_of g data param with [] => false | _ => true end)).
Proof.
  unfold inject_param, change_of, assign. fold store.
  destruct (is_not_None (get store param)) eqn:Hset; cbn [andb].
  - rewrite (getitem_guarded _ _ Hset). cbn.
    destruct (py_ne (get data param) (get store param)); cbn.
    + now rewrite orb_true_r.
    + now rewrite orb_false_r.
  - cbn. now rewrite orb_false_r.
Qed.

Lemma change_of_assign_other (data : pydict) (p q : string) :
  p <> q -> change_of g (assign g data p) q = change_of g data q.
Proof.
  intros Hne. unfold change_of, assign. fold store.
  destruct (is_not_None (get store p)); [|reflexivity].
  now rewrite get_set_other.
Qed.

Lemma change_of_log (data : pydict) (p : string) :
  change_log (map (fun r => Stdout (LInjected (fst (fst r)) (snd (fst r)) (snd r)))
                  (change_of g data p)) = change_of g data p.
Proof.
  unfold change_of. fold store.
  destruct (is_not_None (get store p) && py_ne (get data p) (get store p)); reflexivity.
Qed.

(** The loop over any list of distinct parameters: every record is taken
    against the value the body had on entry, the assignments accumulate,
    and [modified] tells whether a record was logged. *)
Lemma for_fold_inject (params : list string) :
  NoDup params ->
  forall (data : pydict) (modified : bool),
    let m := for_fold params (data, modified) (inject_param g) in
    change_log (trace m) = flat_map (change_of g data) params
    /\ (forall ev, In ev (trace m) -> exists p o n, ev = Stdout (LInjected p o n))
    /\ result m =
       Return (fold_left (assign g) params data,
               modified || match flat_map (change_of g data) params with
                           | [] => false
                           | _ => true
                           end).
Proof.
  induction 1 as [|p params Hnotin Hnd IH]; intros data modified m; subst m;
    cbn [for_fold].
  - cbn. repeat split; [intros ev []| now rewrite orb_false_r].
  - rewrite inject_param_eq, bind_pair.
    specialize (IH (assign g data p)
                   (modified || match change_of g data p with [] => false | _ => true end)).
    cbv zeta in IH. destruct IH as (Hlog & Hev & Hres).
    assert (Hsame : flat_map (change_of g (assign g data p)) params
                    = flat_map (change_of g data) params).
    { apply flat_map_agree. intros q Hq. apply change_of_assign_other.
      intros ->. contradiction. }
    unfold trace, result in *. simpl. repeat split.
    + now rewrite change_log_app, change_of_log, Hlog, Hsame.
    + intros ev Hin. apply in_app_or in Hin as [Hin|Hin]; [|now apply Hev].
      apply in_map_iff in Hin as [[[q o] n] [<- _]]. now exists q, o, n.
    + rewrite Hres, Hsame.
      destruct (change_of g data p); simpl;
        now rewrite ?orb_false_r, ?orb_true_r.
Qed.

Lemma NoDup_sampling_params : NoDup sampling_params.
Proof.
  unfold sampling_params.
  repeat constructor; simpl; intuition discriminate.
Qed.

Lemma get_fold_assign_other (params : list string) (k : string) :
  (~ (In k params /\ is_not_None (get store k) = true)) ->
  forall data, dict_get k (fold_left (assign g) params data) = dict_get k data.
Proof.
  induction params as [|p params IH]; intros Hk data; simpl; [reflexivity|].
  rewrite IH by (intros [Hin Hs]; apply Hk; split; [now right|assumption]).
  unfold assign. fold store. destruct (is_not_None (get store p)) eqn:Hset; [|reflexivity].
  apply dict_get_set_other. intros ->. apply Hk. split; [now left|assumption].
Qed.

Lemma get_fold_assign_set (params : list string) (k : string) :
  In k params -> is_not_None (get store k) = true ->
  forall data, dict_get k (fold_left (assign g) params data) = Some (get store k).
Proof.
  intros Hin Hset.
  induction params as [|p params IH]; intros data; simpl; [contradiction|].
  destruct (in_dec string_dec k params) as [Hin'|Hnot].
  - now apply IH.
  - destruct Hin as [->|Hin]; [|contradiction].
    rewrite get_fold_assign_other by tauto.
    unfold assign. fold store. rewrite Hset. apply dict_get_set_same.
Qed.

End Loop.

(** ** The body rewriter *)

Section Rewriter.
Context {RT : Runtime}.
Variables (g : globals) (self : handler).

Lemma for_each_print {A} (f : A -> line) (xs : list A) :
  for_each xs (fun x => print (f x)) = (map (fun x => Stdout (f x)) xs, Return tt).
Proof.
  induction xs as [|x xs IH]; cbn [for_each map]; [reflexivity|].
  unfold print at 1. now rewrite bind_emit, IH.
Qed.

Lemma change_log_parameters (kvs : pydict) (f : string * pyval -> string) :
  change_log (map (fun kv => Stdout (LParameter (fst kv) (f kv))) kvs) = [].
Proof. induction kvs as [|kv kvs IH]; simpl; auto. Qed.

(** What [_inject_sampling_params] does with a body that reads as an object:
    it prints, calls nothing, logs the records of the loop, and returns the
    serialized object if there is a record and the body it was given if
    there is none. *)
Lemma inject_on_object (body : bytes) (data : pydict) :
  json_loads body = Return (PDict data) ->
  let m := _inject_sampling_params g self body in
  change_log (trace m) = flat_map (change_of g data) sampling_params
  /\ (forall ev, In ev (trace m) -> exists l, ev = Stdout l)
  /\ result m =
     Return match flat_map (change_of g data) sampling_params with
            | [] => body
            | _ => json_dumps (PDict (fold_left (assign g) sampling_params data))
            end.
Proof.
  intros Hload m. subst m.
  destruct (for_fold_inject g NoDup_sampling_params data false) as (Hlog & Hev & Hres).
  fold (inject_loop g data) in Hlog, Hev, Hres.
  destruct (inject_loop g data) as [t r] eqn:Hloop.
  unfold trace, result in *. cbn [fst snd orb] in Hlog, Hev, Hres. subst r.
  unfold _inject_sampling_params. rewrite Hload.
  cbn -[for_each truncate inject_loop sampling_params json_dumps].
  rewrite (for_each_print (fun kv => LParameter (fst kv) (truncate (snd kv) MAX_LOG_LENGTH))).
  rewrite Hloop.
  destruct (flat_map (change_of g data) sampling_params) eqn:Hchanges;
    cbn -[truncate sampling_params json_dumps]; rewrite app_nil_r; repeat split.
  all: try (change (change_log (?a :: ?l)) with (change_log l);
            rewrite change_log_app, change_log_parameters; exact Hlog).
  all: intros ev [<-|Hin]; [now eexists|]; apply in_app_or in Hin as [Hin|Hin];
    [ apply in_map_iff in Hin as [kv [<- _]]; now eexists
    | destruct (Hev ev Hin) as (q & o & n & ->); now eexists ].
Qed.

(** A body that [json.loads] rejects with [JSONDecodeError] comes back as it
    was, and nothing is printed. *)
Lemma inject_decode_error (body : bytes) (msg : string) :
  json_loads body = Raise (Exc JSONDecodeError msg) ->
  _inject_sampling_params g self body = ([], Return body).
Proof.
  intros Hload. unfold _inject_sampling_params. rewrite Hload. reflexivity.
Qed.

(** A body that reads as a value other than an object: the call
    [data.items()] raises [AttributeError], which no clause catches. *)
Lemma inject_not_object (body : bytes) (v : pyval) :
  json_loads body = Return v ->
  (forall d, v <> PDict d) ->
  _inject_sampling_params g self body = ([Stdout LRequestParameters], Raise (no_attribute v "items")).
Proof.
  intros Hload Hv. unfold _inject_sampling_params. rewrite Hload.
  destruct v; try reflexivity. now destruct (Hv d).
Qed.
(** Any other exception of [json.loads] (invalid UTF-8 gives
    [UnicodeDecodeError]) leaves the rewriter. *)
Lemma inject_other_exception (body : bytes) (e : exn) :
  json_loads body = Raise e ->
  isinstance e JSONDecodeError = false ->
  _inject_sampling_params g self body = ([], Raise e).
Proof.
  intros Hload He. unfold _inject_sampling_params. rewrite Hload.
  cbn -[isinstance]. now rewrite He.
Qed.

(** No set override differs from the value the object has: no record, and
    the bytes that came in go out. *)
Lemma inject_no_change (body : bytes) (data : pydict) :
  json_loads body = Return (PDict data) ->
  (forall p, In p sampling_params ->
             is_not_None (get (SAMPLING_CONFIG g) p) = true ->
             py_eq (get data p) (get (SAMPLING_CONFIG g) p) = true) ->
  result (_inject_sampling_params g self body) = Return body
  /\ change_log (trace (_inject_sampling_params g self body)) = [].
Proof.
  intros Hload Heq.
  assert (Hnone : flat_map (change_of g data) sampling_params = []).
  { rewrite (flat_map_agree (change_of g data) (fun _ => [])).
    - reflexivity.
    - intros p Hp. unfold change_of, py_ne.
      destruct (is_not_None (get (SAMPLING_CONFIG g) p)) eqn:Hset; [|reflexivity].
      now rewrite (Heq p Hp Hset). }
  destruct (inject_on_object body Hload) as (Hlog & _ & Hres).
  rewrite Hnone in Hlog, Hres. now split.
Qed.

(** X19.  Rewriting what the rewriter returned changes nothing more, as long
    as [json] reads the object back as it wrote it and every set override is
    equal to itself (every value but a [float] that is no number). *)
Lemma inject_idempotent (body body' : bytes) (data : pydict) :
  json_loads body = Return (PDict data) ->
  json_loads (json_dumps (PDict (fold_left (assign g) sampling_params data)))
  = Return (PDict (fold_left (assign g) sampling_params data)) ->
  (forall p, In p sampling_params ->
             py_eq (get (SAMPLING_CONFIG g) p) (get (SAMPLING_CONFIG g) p) = true) ->
  result (_inject_sampling_params g self body) = Return body' ->
  result (_inject_sampling_params g self body') = Return body'
  /\ change_log (trace (_inject_sampling_params g self body')) = [].
Proof.
  intros Hload Hround Hrefl Hfirst.
  destruct (inject_on_object body Hload) as (Hlog & _ & Hres).
  destruct (flat_map (change_of g data) sampling_params) as [|r rs];
    rewrite Hres in Hfirst; injection Hfirst as <-.
  - now split.
  - apply (inject_no_change _ Hround).
    intros p Hp Hset. unfold get at 1.
    rewrite (get_fold_assign_set g sampling_params p Hp Hset). now apply Hrefl.
Qed.
End Rewriter.

(** ** Forwarding *)

Lemma quiet_trace (t : list event) :
  forallb quiet t = true -> upstream_calls t = [] /\ change_log t = [].
Proof.
  induction t as [|ev t IH]; simpl; [auto|].
  rewrite andb_true_iff. intros [Hev Ht]. destruct (IH Ht) as [-> ->].
  destruct ev as [[]| | | | | |]; simpl in *; auto; discriminate.
Qed.

Section Forwarding.
Context {RT : Runtime}.

Lemma send_headers_eq (hs : list (string * string)) (skip : list string) :
  send_headers hs skip =
  (map (fun kv => SendHeader (fst kv) (snd kv))
       (filter (fun kv => negb (in_tuple (lower (fst kv)) skip)) hs),
   Return tt).
Proof.
  unfold send_headers. induction hs as [|kv hs IH]; cbn [for_each filter map]; [reflexivity|].
  rewrite IH. destruct (in_tuple (lower (fst kv)) skip); cbn; reflexivity.
Qed.

Lemma quiet_headers (hs : list (string * string)) :
  forallb quiet (map (fun kv => SendHeader (fst kv) (snd kv)) hs) = true.
Proof. induction hs; simpl; auto. Qed.

Ltac quiet_solve H :=
  repeat first [ progress cbn [forallb quiet andb app]
               | rewrite forallb_app
               | rewrite quiet_headers
               | rewrite H ];
  reflexivity.

Lemma quiet_stream (rs : list (outcome bytes)) : forallb quiet (trace (stream rs)) = true.
Proof.
  induction rs as [|r rs IH]; cbn [stream]; [reflexivity|].
  destruct r as [chunk|e]; cbn; [|reflexivity].
  destruct (String.eqb chunk ""); cbn; [reflexivity|].
  unfold trace in IH. now destruct (stream rs).
Qed.


(** The request failed with an exception that is no [HTTPError]: the one
    answer the proxy writes itself. *)
Lemma forward_failure (req : request) (c : exn_class) (msg : string) :
  urlopen req = Raise (Exc c msg) ->
  issubclass c Exception = true ->
  forward req =
  ([Urlopen req; Stdout (LError msg); SendResponse 502;
    SendHeader "Content-Type" "application/json"; EndHeaders;
    WfileWrite (json_dumps (PDict [("error", PStr msg)]))],
   Return tt).
Proof.
  intros Hup Hc. unfold forward. rewrite Hup. cbn -[issubclass json_dumps].
  rewrite Hc. reflexivity.
Qed.

(** Whatever the upstream does, [forward] calls it once, with the request it
    was given, and logs no change. *)
Lemma forward_calls (req : request) :
  exists t, trace (forward req) = Urlopen req :: t /\ forallb quiet t = true.
Proof.
  unfold forward. destruct (urlopen req) as [resp|e] eqn:Hup.
  - pose proof (quiet_stream (reads resp)) as Hs. unfold trace in *.
    cbn -[send_headers stream json_dumps issubclass]. rewrite send_headers_eq.
    destruct (stream (reads resp)) as [ts [[]|e]];
      cbn -[send_headers json_dumps issubclass] in Hs |- *.
    + eexists. split; [reflexivity|]. quiet_solve Hs.
    + destruct e as [c msg|code msg hdrs content].
      * destruct (issubclass c Exception); cbn; eexists; (split; [reflexivity|]);
          quiet_solve Hs.
      * rewrite send_headers_eq. cbn. eexists. split; [reflexivity|]. quiet_solve Hs.
  - destruct e as [c msg|code msg hdrs content]; cbn -[send_headers json_dumps issubclass].
    + destruct (issubclass c Exception); cbn; eexists; split; reflexivity.
    + rewrite send_headers_eq. cbn. eexists. split; [reflexivity|].
      quiet_solve Hup.
Qed.
End Forwarding.

(** ** The request handler *)

Section Handler.
Context {RT : Runtime}.

(** Reading the body prints and sends nothing. *)
Lemma read_body_trace (self : handler) : trace (read_body self) = [].
Proof.
  unfold read_body, trace.
  destruct (headers_get (headers self) "Content-Length") as [v|]; [|reflexivity].
  now destruct (py_int v).
Qed.

(** The handler from the point where the body to send is known. *)
Lemma proxy_request_from_body (g : globals) (self : handler) (method : string)
      (received body : option bytes) (t : list event) :
  read_body self = ([], Return received) ->
  rewrite g self received (contains "/messages" (path self)) = (t, Return body) ->
  _proxy_request g self method =
  (t ++ fst (forward (Request (ANTHROPIC_API_URL ++ path self) body
                              (forward_headers (headers self) ["host"; "content-length"])
                              method)),
   snd (forward (Request (ANTHROPIC_API_URL ++ path self) body
                         (forward_headers (headers self) ["host"; "content-length"])
                         method))).
Proof.
  intros Hread Hrw. unfold _proxy_request.
  rewrite Hread, bind_pair. cbv beta. rewrite Hrw, bind_pair. reflexivity.
Qed.

Lemma rewrite_skip (g : globals) (self : handler) (body : option bytes)
      (isTargetEndpoint : bool) :
  isTargetEndpoint = false \/ body = None \/ body = Some "" ->
  rewrite g self body isTargetEndpoint = ([], Return body).
Proof.
  unfold rewrite. intros [-> | [-> | ->]]; [|reflexivity ..].
  destruct body as [b|]; [|reflexivity]. now rewrite andb_false_r.
Qed.
End Handler.

(** * The claims *)

(** C1.  With [isTargetEndpoint] false, or with no body or an empty one, the
    rewriter returns the body it was given and leaves no trace, so no change
    record; and when the flag and the body are those of a request, the one
    request the handler sends upstream carries that body, byte for byte. *)
Theorem rewrite_non_target_unchanged {RT : Runtime} (g : globals) (self : handler)
        (method : string) (body : option bytes) (isTargetEndpoint : bool) :
  isTargetEndpoint = false \/ body = None \/ body = Some "" ->
  rewrite g self body isTargetEndpoint = ([], Return body)
  /\ (isTargetEndpoint = contains "/messages" (path self) ->
      result (read_body self) = Return body ->
      upstream_calls (trace (_proxy_request g self method)) =
      [Request (ANTHROPIC_API_URL ++ path self) body
               (forward_headers (headers self) ["host"; "content-length"]) method]
      /\ change_log (trace (_proxy_request g self method)) = []).
Proof.
  intros Hskip. split; [now apply rewrite_skip|].
  intros -> Hread.
  pose proof (read_body_trace self) as Ht. unfold trace, result in Ht, Hread.
  destruct (read_body self) as [t r] eqn:Hrb. simpl in Ht, Hread. subst t r.
  rewrite (proxy_request_from_body g self method Hrb (rewrite_skip g self Hskip)).
  destruct (forward_calls
              (Request (ANTHROPIC_API_URL ++ path self) body
                       (forward_headers (headers self) ["host"; "content-length"]) method))
    as (t & Ht & Hq).
  unfold trace in *. cbn [fst app]. rewrite Ht.
  destruct (quiet_trace _ Hq) as [Hc Hl]. split.
  - change (upstream_calls (Urlopen ?r :: t)) with (r :: upstream_calls t).
    now rewrite Hc.
  - exact Hl.
Qed.

Lemma rewrite_non_target_unchanged_witness :
  @rewrite Examples.online Examples.store_t_k Examples.post_complete
           (Some (rfile Examples.post_complete)) false
  = ([], Return (Some (rfile Examples.post_complete)))
  /\ upstream_calls
       (trace (@_proxy_request Examples.online Examples.store_t_k Examples.post_complete "POST"))
     = [Request "https://api.anthropic.com/v1/complete"
                (Some (rfile Examples.post_complete)) [] "POST"]
  /\ change_log
       (trace (@_proxy_request Examples.online Examples.store_t_k Examples.post_complete "POST"))
     = [].
Proof.
  destruct (@rewrite_non_target_unchanged
              Examples.online Examples.store_t_k Examples.post_complete "POST"
              (Some (rfile Examples.post_complete)) false (or_introl eq_refl))
    as [Hrewrite Hforward].
  split; [exact Hrewrite|].
  apply Hforward; reflexivity.
Defined.

(** C2, where the code departs from it.  The body [[1]] is JSON and no
    object: [json.loads] returns a list, [data.items()] raises
    [AttributeError], the clause [except json.JSONDecodeError] does not
    catch it, and the call in [_proxy_request] stands outside its [try]: the
    exception leaves the handler, nothing goes upstream and nothing goes to
    the caller. *)
Theorem inject_array_body_raises (upstream : request -> outcome response)
        (fs : string -> file) (g : globals) (self : handler) :
  @_inject_sampling_params (Mini.runtime upstream fs) g self "[1]"
  = ([Stdout LRequestParameters],
     Raise (Exc AttributeError "'list' object has no attribute 'items'"))
  /\ @_proxy_request (Mini.runtime upstream fs) g Examples.post_array "POST"
     = ([Stdout LRequestParameters],
        Raise (Exc AttributeError "'list' object has no attribute 'items'")).
Proof. split; reflexivity. Qed.









(** C8.  The request went out and failed with an exception that is no
    [HTTPError] (a transport error is an [OSError], so an [Exception]): the
    handler answers 502 with [Content-Type: application/json] and the body
    [json.dumps({"error": str(e)})], and returns: the exception does not
    leave the handler. *)
Theorem proxy_answers_502 {RT : Runtime} (g : globals) (self : handler)
        (method : string) (received body : option bytes) (t : list event)
        (c : exn_class) (msg : string) :
  read_body self = ([], Return received) ->
  rewrite g self received (contains "/messages" (path self)) = (t, Return body) ->
  urlopen (Request (ANTHROPIC_API_URL ++ path self) body
                   (forward_headers (headers self) ["host"; "content-length"]) method)
  = Raise (Exc c msg) ->
  issubclass c Exception = true ->
  _proxy_request g self method =
  (t ++ [Urlopen (Request (ANTHROPIC_API_URL ++ path self) body
                          (forward_headers (headers self) ["host"; "content-length"])
                          method);
         Stdout (LError msg);
         SendResponse 502;
         SendHeader "Content-Type" "application/json";
         EndHeaders;
         WfileWrite (json_dumps (PDict [("error", PStr msg)]))],
   Return tt).
Proof.
  intros Hread Hrw Hup Hc.
  rewrite (proxy_request_from_body g self method Hread Hrw).
  now rewrite (forward_failure _ Hup Hc).
Qed.

Lemma proxy_answers_502_witness :
  @_proxy_request Examples.offline Examples.store_k Examples.get_models "GET" =
  ([Urlopen (Request "https://api.anthropic.com/v1/models?limit=5" None
                     [("Accept", "*/*")] "GET");
    Stdout (LError "<urlopen error [Errno 111] Connection refused>");
    SendResponse 502;
    SendHeader "Content-Type" "application/json";
    EndHeaders;
    WfileWrite (Examples.json_text
             "{'error': '<urlopen error [Errno 111] Connection refused>'}")],
   Return tt).
Proof.
  exact (@proxy_answers_502
           Examples.offline Examples.store_k Examples.get_models "GET"
           None None [] URLError "<urlopen error [Errno 111] Connection refused>"
           eq_refl eq_refl eq_refl eq_refl).
Defined.

(** C9.  [do_OPTIONS], whatever the path, the headers and the body of the
    request: status 200, the three CORS headers, the end of the headers, and
    nothing else; no body is written, nothing is printed by the rewriter,
    the upstream is not called. *)
Theorem do_OPTIONS_preflight (self : handler) :
  do_OPTIONS self =
  ([SendResponse 200;
    SendHeader "Access-Control-Allow-Origin" "*";
    SendHeader "Access-Control-Allow-Methods" "GET, POST, OPTIONS";
    SendHeader "Access-Control-Allow-Headers" "*";
    EndHeaders],
   Return tt)
  /\ upstream_calls (trace (do_OPTIONS self)) = []
  /\ change_log (trace (do_OPTIONS self)) = []
  /\ (forall ev, In ev (trace (do_OPTIONS self)) ->
                 (forall b, ev <> WfileWrite b) /\ (forall l, ev <> Stdout l)).
Proof.
  repeat split; try reflexivity;
    match goal with H : In _ _ |- _ => cbn in H; intuition (subst; discriminate) end.
Qed.

(** ** The configuration file *)

Section ConfigFile.
Context {RT : Runtime}.

(** On an object, [data.get(name) or data.get(alias)] is Python's [or] of
    the two values: the canonical one when it is true, else the alias. *)
Lemma get_or_object (d : pydict) (name alias : string) :
  get_or (PDict d) name alias = ret (py_or (get d name) (get d alias)).
Proof. unfold get_or, py_or. cbn. now destruct (truthy (get d name)). Qed.

(** X4.  A file that reads as an object gives, for each field, Python's [or]
    of the canonical key and its alias: the canonical value wins when it is
    true, not when it is merely not [None]; when it is absent or false the
    alias's value is taken as it is, be it zero or [None]. *)
Lemma load_config_file_object (config_path text : string) (d : pydict) :
  file_at (expanduser config_path) = Present (Return text) ->
  json_loads text = Return (PDict d) ->
  load_config_file config_path =
  ([], Return [("temperature", py_or (get d "temperature") (get d "preferred_temperature"));
               ("top_p", py_or (get d "top_p") (get d "preferred_top_p"));
               ("top_k", py_or (get d "top_k") (get d "preferred_top_k"))]).
Proof.
  intros Hfile Hload. unfold load_config_file. rewrite Hfile. cbn -[get_or isinstance].
  rewrite Hload. cbn -[get_or isinstance]. now rewrite !get_or_object.
Qed.

(** What the file gives when it gives something: nothing, or the three keys. *)
Lemma load_config_file_shape (config_path : string) (t : list event) (file_config : pydict) :
  load_config_file config_path = (t, Return file_config) ->
  file_config = []
  \/ exists a b c, file_config = [("temperature", a); ("top_p", b); ("top_k", c)].
Proof.
  unfold load_config_file. destruct (file_at (expanduser config_path)) as [|content].
  - intros H. injection H as _ <-. now left.
  - destruct content as [text|e]; cbn -[get_or isinstance].
    + destruct (json_loads text) as [data|e]; cbn -[get_or isinstance].
      * destruct data; try (cbn; discriminate).
        rewrite !get_or_object. cbn. intros H. injection H as _ <-.
        right. now eexists _, _, _.
      * destruct (isinstance e JSONDecodeError || isinstance e OSError); cbn;
          [|discriminate]. intros H. injection H as _ <-. now left.
    + destruct (isinstance e JSONDecodeError || isinstance e OSError); cbn;
        [|discriminate]. intros H. injection H as _ <-. now left.
Qed.
End ConfigFile.

(** C5, where the code departs from it.  The file holds
    [{"temperature": 0.0, "preferred_temperature": 0.9}]: the canonical key
    is there and is not null, and the value loaded for [temperature] is the
    alias's 0.9, since [or] takes 0.0 for false. *)
Theorem load_config_file_zero_loses_to_alias (upstream : request -> outcome response) :
  let RT := Mini.runtime upstream (Examples.one_file "sampling.json" Examples.zero_and_alias) in
  @json_loads RT Examples.zero_and_alias
  = Return (PDict [("temperature", PFloat 0); ("preferred_temperature", PFloat 0.9)])
  /\ @load_config_file RT "sampling.json"
     = ([], Return [("temperature", PFloat 0.9); ("top_p", PNone); ("top_k", PNone)]).
Proof. split; reflexivity. Qed.



(** ** The scenarios of the specification, run *)

(** The body of the rewrite scenario: the object is as the scenario has it,
    the bytes are those of [json.dumps], with its separators. *)
Example scenario_rewritten_body :
  result (@_inject_sampling_params Examples.online Examples.store_t_k
                                   Examples.post_messages Examples.messages_body)
  = Return (Examples.json_text "{'model': 'x', 'temperature': 0.2, 'top_k': 40}").
Proof. reflexivity. Qed.

(** The alias scenario: a canonical value that is true wins over the alias. *)
Example scenario_alias_precedence (upstream : request -> outcome response) :
  @load_config_file
    (Mini.runtime upstream (Examples.one_file "sampling.json" Examples.value_and_alias))
    "sampling.json"
  = ([], Return [("temperature", PFloat 0.3); ("top_p", PNone); ("top_k", PNone)]).
Proof. reflexivity. Qed.

(** A file that sets a field the command line leaves alone. *)
Example scenario_file_only :
  result (@main (Mini.runtime Examples.refused
                              (Examples.one_file "sampling.json" Examples.only_temperature))
                (Args (Some "sampling.json") None None (Some 40%Z)))
  = Return (Globals [("temperature", PFloat 0.5); ("top_p", PNone); ("top_k", PInt 40)]).
Proof. reflexivity. Qed.

(** A malformed body on the target endpoint goes upstream as it came. *)
Example scenario_malformed_body :
  @_inject_sampling_params Examples.online Examples.store_t_k Examples.post_messages "{oops"
  = ([], Return "{oops").
Proof. reflexivity. Qed.

(** * Further properties of the code *)

(** ** Strings and slices *)



Lemma slice_to_all (n : nat) (s : string) : String.length s <= n -> slice_to n s = s.
Proof.
  unfold slice_to. revert s. induction n as [|n IH]; intros [|c s]; intros H;
    simpl in *; try reflexivity; try lia.
  f_equal. apply IH. lia.
Qed.





(** ** The configuration file and the start *)

Lemma load_config_file_object_witness :
  @load_config_file
    (Mini.runtime Examples.refused (Examples.one_file "sampling.json" Cases.aliases))
    "sampling.json"
  = ([], Return [("temperature", PNone); ("top_p", PFloat 0.9); ("top_k", PInt 0)]).
Proof.
  exact (@load_config_file_object
           (Mini.runtime Examples.refused (Examples.one_file "sampling.json" Cases.aliases))
           "sampling.json" Cases.aliases
           [("preferred_top_k", PInt 0); ("top_p", PFloat 0.9); ("preferred_top_p", PFloat 0.1)]
           eq_refl eq_refl).
Defined.

Section Start.
Context {RT : Runtime}.

(** [main] once the file stage has returned [file_config]. *)
Lemma main_after_load (a : args) (config_path : string) (t : list event)
      (file_config : pydict) :
  config a = Some config_path -> config_path <> "" ->
  load_config_file config_path = (t, Return file_config) ->
  main a =
  (t ++ [Stdout (LLoaded config_path)],
   Return (Globals
             (dict_update
                (dict_update (SAMPLING_CONFIG initial_globals)
                             (filter (fun kv => is_not_None (snd kv)) file_config))
                (filter (fun kv => is_not_None (snd kv)) (cli_store a))))).
Proof.
  intros Hc Hne Hload. unfold main. rewrite Hc.
  apply String.eqb_neq in Hne. rewrite Hne. cbn [negb]. rewrite Hload.
  assert (Hshape := load_config_file_shape _ Hload).
  destruct Hshape as [->|(x & y & z & ->)].
  - destruct (temperature a) eqn:Ht, (top_p a) eqn:Hp, (top_k a) eqn:Hk;
      unfold cli_store; rewrite Ht, Hp, Hk; cbn; rewrite app_nil_r; reflexivity.
  - destruct (temperature a) eqn:Ht, (top_p a) eqn:Hp, (top_k a) eqn:Hk;
      unfold cli_store; rewrite Ht, Hp, Hk; cbn; rewrite app_nil_r;
      destruct (is_not_None x), (is_not_None y), (is_not_None z); reflexivity.
Qed.

Lemma main_without_file (a : args) :
  config a = None \/ config a = Some "" ->
  main a = ([], Return (Globals (dict_update (SAMPLING_CONFIG initial_globals)
                                   (filter (fun kv => is_not_None (snd kv)) (cli_store a))))).
Proof.
  intros Hc. unfold main.
  destruct Hc as [Hc|Hc]; rewrite Hc; cbn [String.eqb negb];
    destruct (temperature a) eqn:Ht, (top_p a) eqn:Hp, (top_k a) eqn:Hk;
    unfold cli_store; rewrite Ht, Hp, Hk; reflexivity.
Qed.

(** When the file stage raises, so does [main], at once. *)
Lemma main_load_raises (a : args) (config_path : string) (t : list event) (e : exn) :
  config a = Some config_path -> config_path <> "" ->
  load_config_file config_path = (t, Raise e) ->
  main a = (t, Raise e).
Proof.
  intros Hc Hne Hload. unfold main. rewrite Hc.
  apply String.eqb_neq in Hne. rewrite Hne. cbn [negb]. rewrite Hload. reflexivity.
Qed.
End Start.

Section DictUpdateFacts.
Variable V : Type.
Implicit Types (d src : list (string * V)) (k : string).

Lemma dict_get_some_in_keys d k : In k (keys d) <-> dict_get k d <> None.
Proof.
  unfold keys. induction d as [|[k' v'] d IH]; simpl.
  - split; [contradiction|congruence].
  - destruct (String.eqb k k') eqn:E.
    + apply String.eqb_eq in E. subst. split; [discriminate|now left].
    + apply String.eqb_neq in E. rewrite <- IH. split; [intros [H|H]|]; auto; congruence.
Qed.

(** Updating with keys the dictionary has leaves its keys, and their order,
    as they are. *)
Lemma keys_dict_update_within d src :
  (forall k, In k (keys src) -> In k (keys d)) -> keys (dict_update d src) = keys d.
Proof.
  unfold dict_update. revert d. induction src as [|[k v] src IH]; intros d Hin; simpl.
  - reflexivity.
  - assert (Hk : keys (dict_set k v d) = keys d).
    { rewrite keys_dict_set. assert (Hd : In k (keys d)) by (apply Hin; now left).
      apply dict_get_some_in_keys in Hd. now destruct (dict_get k d). }
    rewrite IH; [exact Hk|]. intros k' Hk'. rewrite Hk. apply Hin. now right.
Qed.

Lemma keys_filter_subset (f : string * V -> bool) d k :
  In k (keys (filter f d)) -> In k (keys d).
Proof.
  unfold keys. rewrite !in_map_iff. intros [kv [<- Hkv]].
  apply filter_In in Hkv as [Hkv _]. now exists kv.
Qed.
End DictUpdateFacts.




(** X3.  A configuration file that is JSON but no object, or whose reading
    raises anything but [JSONDecodeError] and [OSError], stops the start:
    the exception leaves [load_config_file] and then [main], before a line
    is printed. *)
Theorem config_error_aborts_startup {RT : Runtime} (a : args) (config_path text : string)
        (e : exn) :
  config a = Some config_path ->
  config_path <> "" ->
  file_at (expanduser config_path) = Present (Return text) ->
  ((exists v, json_loads text = Return v /\ (forall d, v <> PDict d)
              /\ e = no_attribute v "get")
   \/ (json_loads text = Raise e
       /\ (isinstance e JSONDecodeError || isinstance e OSError) = false)) ->
  load_config_file config_path = ([], Raise e)
  /\ main a = ([], Raise e).
Proof.
  intros Hc Hne Hfile Hcase.
  assert (Hload : load_config_file config_path = ([], Raise e)).
  { unfold load_config_file. rewrite Hfile. cbn -[isinstance get_or].
    destruct Hcase as [(v & -> & Hv & ->)|[-> Hun]].
    - destruct v; try reflexivity. now destruct (Hv d).
    - cbn -[isinstance]. now rewrite Hun. }
  split; [exact Hload|]. exact (main_load_raises a Hc Hne Hload).
Qed.

Lemma config_error_aborts_startup_witness :
  @main (Mini.runtime Examples.refused (Examples.one_file "sampling.json" "[0.5]"))
        (Args (Some "sampling.json") None None None)
  = ([], Raise (Exc AttributeError "'list' object has no attribute 'get'")).
Proof.
  apply (@config_error_aborts_startup
           (Mini.runtime Examples.refused (Examples.one_file "sampling.json" "[0.5]"))
           (Args (Some "sampling.json") None None None) "sampling.json" "[0.5]").
  - reflexivity.
  - discriminate.
  - reflexivity.
  - left. exists (PList [PFloat 0.5]). repeat split. discriminate.
Defined.

(** X5.  Whatever the file and the command line hold, the store [main]
    leaves has the three keys [temperature], [top_p], [top_k], in this
    order, and no other: the subscript [SAMPLING_CONFIG[param]] of the
    rewriter cannot raise [KeyError]. *)
Theorem main_store_keys {RT : Runtime} (a : args) (t : list event) (g : globals) :
  main a = (t, Return g) ->
  keys (SAMPLING_CONFIG g) = sampling_params
  /\ (forall p, In p sampling_params ->
                getitem (SAMPLING_CONFIG g) p = ret (get (SAMPLING_CONFIG g) p)).
Proof.
  intros Hmain.
  assert (Hkeys : keys (SAMPLING_CONFIG g) = sampling_params).
  { assert (Hcli : forall d, keys d = sampling_params ->
                keys (dict_update d (filter (fun kv => is_not_None (snd kv)) (cli_store a)))
                = sampling_params).
    { intros d Hd. rewrite keys_dict_update_within; [exact Hd|].
      intros k Hk. apply keys_filter_subset in Hk. rewrite Hd.
      unfold cli_store in Hk. exact Hk. }
    destruct (config a) as [config_path|] eqn:Hc.
    - destruct (String.eqb_spec config_path "") as [->|Hne].
      + rewrite (main_without_file a (or_intror Hc)) in Hmain.
        injection Hmain as _ <-. now apply Hcli.
      + destruct (load_config_file config_path) as [t0 [file_config|e]] eqn:Hload.
        * rewrite (main_after_load a Hc Hne Hload) in Hmain. injection Hmain as _ <-.
          apply Hcli. rewrite keys_dict_update_within; [reflexivity|].
          intros k Hk. apply keys_filter_subset in Hk.
          destruct (load_config_file_shape _ Hload) as [->|(x & y & z & ->)];
            [contradiction|exact Hk].
        * rewrite (main_load_raises a Hc Hne Hload) in Hmain. discriminate.
    - rewrite (main_without_file a (or_introl Hc)) in Hmain.
      injection Hmain as _ <-. now apply Hcli. }
  split; [exact Hkeys|].
  intros p Hp. unfold getitem, get.
  assert (Hin : In p (keys (SAMPLING_CONFIG g))) by now rewrite Hkeys.
  apply dict_get_some_in_keys in Hin. now destruct (dict_get p (SAMPLING_CONFIG g)).
Qed.

Lemma main_store_keys_witness :
  keys (SAMPLING_CONFIG
          (Globals [("temperature", PFloat 0.5); ("top_p", PFloat 0.9); ("top_k", PInt 0)]))
  = ["temperature"; "top_p"; "top_k"].
Proof.
  apply (@main_store_keys
           (Mini.runtime Examples.refused (Examples.one_file "sampling.json" Cases.aliases))
           (Args (Some "sampling.json") (Some 0.5%float) None None)
           [Stdout (LLoaded "sampling.json")]
           (Globals [("temperature", PFloat 0.5); ("top_p", PFloat 0.9); ("top_k", PInt 0)])
           eq_refl).
Defined.



(** ** The request that goes upstream *)

Section HeaderFacts.
Variable V : Type.
Implicit Types (d : list (string * V)) (k : string).

Lemma dict_get_app d d' k :
  dict_get k (d ++ d') =
  match dict_get k d with
  | Some v => Some v
  | None => dict_get k d'
  end.
Proof.
  induction d as [|[k' v'] d IH]; simpl; [reflexivity|].
  now destruct (String.eqb k k').
Qed.

Lemma NoDup_keys_dict_set d k (v : V) : NoDup (keys d) -> NoDup (keys (dict_set k v d)).
Proof.
  intros Hnd. rewrite keys_dict_set. destruct (dict_get k d) eqn:Hk; [exact Hnd|].
  apply NoDup_app; [exact Hnd|repeat constructor; intros []|].
  intros x Hx [<-|[]]. apply dict_get_some_in_keys in Hx. congruence.
Qed.
End HeaderFacts.

Lemma forward_headers_fold (skip : list string) (hs acc : list (string * string))
      (k : string) :
  dict_get k (fold_left (fun acc kv =>
                           if in_tuple (lower (fst kv)) skip then acc
                           else dict_set (fst kv) (snd kv) acc) hs acc) =
  match (if in_tuple (lower k) skip then None else dict_get k (rev hs)) with
  | Some v => Some v
  | None => dict_get k acc
  end
  /\ (NoDup (keys acc) ->
      NoDup (keys (fold_left (fun acc kv =>
                                if in_tuple (lower (fst kv)) skip then acc
                                else dict_set (fst kv) (snd kv) acc) hs acc))).
Proof.
  revert acc. induction hs as [|[k0 v0] hs IH]; intros acc; cbn [fold_left rev fst snd].
  - split; [now destruct (in_tuple (lower k) skip)|auto].
  - destruct (IH (if in_tuple (lower k0) skip then acc else dict_set k0 v0 acc))
      as [Hget Hnd].
    split.
    + rewrite Hget, dict_get_app. cbn [dict_get].
      destruct (in_tuple (lower k) skip) eqn:Hk.
      * destruct (in_tuple (lower k0) skip) eqn:Hk0; [reflexivity|].
        apply dict_get_set_other. intros ->. congruence.
      * destruct (dict_get k (rev hs)); [reflexivity|].
        destruct (String.eqb k k0) eqn:E.
        -- apply String.eqb_eq in E. subst k0. rewrite Hk. apply dict_get_set_same.
        -- apply String.eqb_neq in E.
           destruct (in_tuple (lower k0) skip); [reflexivity|].
           apply dict_get_set_other. congruence.
    + intros Hacc. apply Hnd. destruct (in_tuple (lower k0) skip); [exact Hacc|].
      now apply NoDup_keys_dict_set.
Qed.

Lemma in_dict_get_some {V} (d : list (string * V)) k v : In (k, v) d -> dict_get k d <> None.
Proof.
  intros Hin. apply dict_get_some_in_keys. unfold keys. apply in_map_iff. now exists (k, v).
Qed.

(** X7.  The headers sent upstream never include [Host] or [Content-Length],
    in whatever letter case the caller wrote them. *)
Theorem forward_headers_drops_host_and_length (hs : list (string * string))
        (k v : string) :
  In (k, v) (forward_headers hs ["host"; "content-length"]) ->
  lower k <> "host" /\ lower k <> "content-length".
Proof.
  intros Hin. apply in_dict_get_some in Hin. unfold forward_headers in Hin.
  rewrite (proj1 (forward_headers_fold ["host"; "content-length"] hs [] k)) in Hin.
  destruct (in_tuple (lower k) ["host"; "content-length"]) eqn:Hskip.
  - now cbn in Hin.
  - unfold in_tuple in Hskip. cbn in Hskip.
    apply orb_false_iff in Hskip as [H1 H2]. apply orb_false_iff in H2 as [H2 _].
    split; now apply String.eqb_neq.
Qed.

Lemma forward_headers_drops_host_and_length_witness :
  In ("X-Trace", "2") (forward_headers Cases.inbound_headers ["host"; "content-length"])
  /\ lower "X-Trace" <> "host" /\ lower "X-Trace" <> "content-length".
Proof.
  assert (Hin : In ("X-Trace", "2")
                   (forward_headers Cases.inbound_headers ["host"; "content-length"]))
    by (vm_compute; left; reflexivity).
  split; [exact Hin|].
  exact (@forward_headers_drops_host_and_length Cases.inbound_headers "X-Trace" "2" Hin).
Defined.

(** X8.  Every other header of the request goes upstream: under each name,
    compared exactly, the value of the last header of that name, each name
    once. *)
Theorem forward_headers_last_value (hs : list (string * string)) (skip : list string)
        (k : string) :
  in_tuple (lower k) skip = false ->
  dict_get k (forward_headers hs skip) = dict_get k (rev hs)
  /\ NoDup (keys (forward_headers hs skip)).
Proof.
  intros Hk. unfold forward_headers.
  destruct (forward_headers_fold skip hs [] k) as [Hget Hnd].
  split; [|apply Hnd; constructor].
  rewrite Hget, Hk. now destruct (dict_get k (rev hs)).
Qed.

Lemma forward_headers_last_value_witness :
  dict_get "X-Trace" (forward_headers Cases.inbound_headers ["host"; "content-length"])
  = Some "2"
  /\ forward_headers Cases.inbound_headers ["host"; "content-length"]
     = [("X-Trace", "2"); ("Accept", "*/*")].
Proof.
  split; [|reflexivity].
  destruct (@forward_headers_last_value Cases.inbound_headers ["host"; "content-length"]
              "X-Trace" eq_refl) as [Hget _].
  exact Hget.
Defined.




(** ** The handler before the [try] *)

Lemma only_prints_observed (t : list event) :
  (forall ev, In ev t -> exists l, ev = Stdout l) ->
  upstream_calls t = [] /\ written t = "" /\ forallb no_hop_header t = true.
Proof.
  unfold written. induction t as [|ev t IH]; intros H; [now cbn|].
  destruct (H ev (or_introl eq_refl)) as [l ->].
  destruct IH as (Hc & Hw & Hh); [intros ev' Hin; apply H; now right|].
  split; [exact Hc|]. split; [exact Hw|exact Hh].
Qed.

Lemma upstream_calls_concat (t1 t2 : list event) :
  upstream_calls (t1 ++ t2) = upstream_calls t1 ++ upstream_calls t2.
Proof. unfold upstream_calls. apply flat_map_app. Qed.

Section BeforeTry.
Context {RT : Runtime}.
Variables (g : globals) (self : handler).

Lemma inject_trace_prints (body : bytes) (ev : event) :
  In ev (trace (_inject_sampling_params g self body)) -> exists l, ev = Stdout l.
Proof.
  destruct (json_loads body) as [v|e] eqn:Hload.
  - assert (Hcases : (exists d, v = PDict d) \/ forall d, v <> PDict d).
    { destruct v; try (right; discriminate). left. now eexists. }
    destruct Hcases as [[d ->]|Hv].
    + destruct (inject_on_object g self body Hload) as (_ & Hev & _). apply Hev.
    + rewrite (inject_not_object g self body Hload Hv). intros [<-|[]]. now eexists.
  - unfold _inject_sampling_params. rewrite Hload. cbn -[isinstance].
    destruct (isinstance e JSONDecodeError); intros [].
Qed.

Lemma rewrite_trace_prints (body : option bytes) (flag : bool) (ev : event) :
  In ev (trace (rewrite g self body flag)) -> exists l, ev = Stdout l.
Proof.
  unfold rewrite. destruct body as [b|]; [|intros []].
  destruct (negb (String.eqb b "") && flag); [|intros []].
  pose proof (inject_trace_prints b ev) as Hev. unfold trace in *.
  destruct (_inject_sampling_params g self b) as [t [b'|e]]; cbn; [|exact Hev].
  now rewrite app_nil_r.
Qed.

(** An exception before the [try] leaves the handler with what was printed. *)
Lemma proxy_request_raises_early (method : string) (t : list event) (e : exn) :
  read_body self = (t, Raise e)
  \/ (exists received, read_body self = ([], Return received)
                       /\ rewrite g self received (contains "/messages" (path self))
                          = (t, Raise e)) ->
  _proxy_request g self method = (t, Raise e).
Proof.
  unfold _proxy_request. intros [Hread|(received & Hread & Hrw)]; rewrite Hread.
  - reflexivity.
  - rewrite bind_pair. cbv beta. rewrite Hrw. reflexivity.
Qed.
End BeforeTry.

(** X10.  The rewriter only prints: whatever the body and whether it returns
    or raises, it sends nothing to the upstream and writes nothing to the
    caller. *)
Theorem rewrite_only_prints {RT : Runtime} (g : globals) (self : handler)
        (body : option bytes) (isTargetEndpoint : bool) :
  upstream_calls (trace (rewrite g self body isTargetEndpoint)) = []
  /\ written (trace (rewrite g self body isTargetEndpoint)) = ""
  /\ (forall ev, In ev (trace (rewrite g self body isTargetEndpoint)) ->
                 exists l, ev = Stdout l).
Proof.
  pose proof (rewrite_trace_prints g self body isTargetEndpoint) as Hev.
  destruct (only_prints_observed _ Hev) as (Hc & Hw & _). auto.
Qed.

Lemma rewrite_only_prints_witness :
  upstream_calls (trace (@rewrite Examples.online Examples.store_t_k Examples.post_messages
                                  (Some Examples.messages_body) true)) = []
  /\ written (trace (@rewrite Examples.online Examples.store_t_k Examples.post_messages
                              (Some Examples.messages_body) true)) = "".
Proof.
  destruct (@rewrite_only_prints Examples.online Examples.store_t_k Examples.post_messages
              (Some Examples.messages_body) true) as (Hcalls & Hwritten & _).
  split; [exact Hcalls|exact Hwritten].
Defined.

(** X11.  What raises before the [try] of [_proxy_request] leaves the
    handler: a [Content-Length] that [int] rejects, or an exception of the
    rewriter.  Nothing has then gone upstream and nothing goes to the
    caller, no status and no body. *)
Theorem early_exception_leaves_handler {RT : Runtime} (g : globals) (self : handler)
        (method : string) (t : list event) (e : exn) :
  ((exists v, headers_get (headers self) "Content-Length" = Some v /\ py_int v = Raise e
              /\ t = [])
   \/ (exists received, read_body self = ([], Return received)
                        /\ rewrite g self received (contains "/messages" (path self))
                           = (t, Raise e))) ->
  _proxy_request g self method = (t, Raise e)
  /\ upstream_calls t = []
  /\ (forall ev, In ev t -> exists l, ev = Stdout l).
Proof.
  intros Hcase.
  assert (Hearly : read_body self = (t, Raise e)
                   \/ (exists received, read_body self = ([], Return received)
                                        /\ rewrite g self received
                                                   (contains "/messages" (path self))
                                           = (t, Raise e))).
  { destruct Hcase as [(v & Hv & Hint & ->)|Hrw]; [left|now right].
    unfold read_body. now rewrite Hv, Hint. }
  assert (Hprints : forall ev, In ev t -> exists l, ev = Stdout l).
  { destruct Hcase as [(v & _ & _ & ->)|(received & _ & Hrw)]; [intros ev []|].
    intros ev Hin.
    apply (rewrite_trace_prints g self received (contains "/messages" (path self))).
    now rewrite Hrw. }
  split; [now apply proxy_request_raises_early|].
  split; [apply (only_prints_observed _ Hprints)|exact Hprints].
Qed.

Lemma early_exception_leaves_handler_witness :
  @_proxy_request Cases.wordy Examples.store_k Cases.post_bad_length "POST"
  = ([], Raise (Exc ValueError "invalid literal for int() with base 10: 'abc'")).
Proof.
  apply (@early_exception_leaves_handler
           Cases.wordy Examples.store_k Cases.post_bad_length "POST" []
           (Exc ValueError "invalid literal for int() with base 10: 'abc'")).
  left. exists "abc". repeat split.
Defined.

(** X12.  A request is sent upstream at most once, and never retried: when
    it is sent, it goes to the base URL followed by the path as it came,
    query string included, with the method of the request and the headers
    kept; when nothing is sent, an exception left the handler before the
    [try]. *)
Theorem proxy_request_calls_once {RT : Runtime} (g : globals) (self : handler)
        (method : string) :
  (upstream_calls (trace (_proxy_request g self method)) = []
   /\ exists e, result (_proxy_request g self method) = Raise e)
  \/ exists body,
      upstream_calls (trace (_proxy_request g self method))
      = [Request (ANTHROPIC_API_URL ++ path self) body
                 (forward_headers (headers self) ["host"; "content-length"]) method].
Proof.
  pose proof (read_body_trace self) as Ht0. unfold trace in Ht0.
  destruct (read_body self) as [t0 [received|e]] eqn:Hread; cbn in Ht0; subst t0.
  - destruct (rewrite g self received (contains "/messages" (path self)))
      as [t1 [body|e]] eqn:Hrw.
    + right. exists body.
      rewrite (proxy_request_from_body g self method Hread Hrw).
      destruct (forward_calls
                  (Request (ANTHROPIC_API_URL ++ path self) body
                           (forward_headers (headers self) ["host"; "content-length"])
                           method)) as (t & Ht & Hq).
      unfold trace in *. cbn [fst]. rewrite Ht, upstream_calls_concat.
      assert (Ht1 : upstream_calls t1 = []).
      { apply only_prints_observed. intros ev Hin.
        apply (rewrite_trace_prints g self received (contains "/messages" (path self))).
        now rewrite Hrw. }
      rewrite Ht1. destruct (quiet_trace _ Hq) as [Hc _].
      change (upstream_calls (Urlopen ?r :: t)) with (r :: upstream_calls t).
      now rewrite Hc.
    + left.
      rewrite (proxy_request_raises_early g self method
                 (or_intror (ex_intro _ received (conj Hread Hrw)))).
      split; [|now exists e]. apply only_prints_observed. intros ev Hin.
      apply (rewrite_trace_prints g self received (contains "/messages" (path self))).
      now rewrite Hrw.
  - left. rewrite (proxy_request_raises_early g self method (or_introl Hread)).
    split; [reflexivity|now exists e].
Qed.

(** X13.  A body that [json.loads] rejects with [JSONDecodeError] changes
    nothing, on any path: the handler does what it does for the body as it
    was read, which goes upstream byte for byte. *)
Theorem malformed_body_forwarded {RT : Runtime} (g : globals) (self : handler)
        (method : string) (b : bytes) (msg : string) :
  read_body self = ([], Return (Some b)) ->
  json_loads b = Raise (Exc JSONDecodeError msg) ->
  _proxy_request g self method
  = forward (Request (ANTHROPIC_API_URL ++ path self) (Some b)
                     (forward_headers (headers self) ["host"; "content-length"]) method).
Proof.
  intros Hread Hload.
  assert (Hrw : rewrite g self (Some b) (contains "/messages" (path self))
                = ([], Return (Some b))).
  { unfold rewrite. destruct (negb (String.eqb b "") && contains "/messages" (path self));
      [|reflexivity].
    now rewrite (inject_decode_error g self b Hload). }
  rewrite (proxy_request_from_body g self method Hread Hrw).
  now destruct (forward _).
Qed.

Lemma malformed_body_forwarded_witness :
  upstream_calls (trace (@_proxy_request Examples.online Examples.store_t_k
                                         Cases.post_short "POST"))
  = [Request "https://api.anthropic.com/v1/messages" (Some "{oops") [] "POST"].
Proof.
  rewrite (@malformed_body_forwarded Examples.online Examples.store_t_k Cases.post_short
             "POST" "{oops" "Expecting value" eq_refl eq_refl).
  reflexivity.
Defined.

(** X14.  The target test is a substring test on the whole path and asks
    nothing of the method: wherever [/messages] stands, in the query string
    too, and for [GET] as for [POST], a body that is not empty goes through
    the rewriter, and what the rewriter returns is what goes upstream. *)
Theorem target_by_substring_any_method {RT : Runtime} (g : globals) (self : handler)
        (method : string) (pre post : string) (b : bytes) :
  path self = (pre ++ "/messages" ++ post)%string ->
  read_body self = ([], Return (Some b)) ->
  b <> "" ->
  _proxy_request g self method
  = (b' <- _inject_sampling_params g self b ;;
     forward (Request (ANTHROPIC_API_URL ++ path self) (Some b')
                      (forward_headers (headers self) ["host"; "content-length"]) method)).
Proof.
  intros Hpath Hread Hne.
  assert (Hflag : contains "/messages" (path self) = true).
  { apply contains_spec. now exists pre, post. }
  unfold _proxy_request, rewrite. rewrite Hread, Hflag.
  apply String.eqb_neq in Hne. rewrite bind_pair. cbv beta. rewrite Hne. cbn [negb andb].
  destruct (_inject_sampling_params g self b) as [t [b'|e]]; cbn -[forward]; [|reflexivity].
  destruct (forward _). now rewrite app_nil_r.
Qed.

Lemma target_by_substring_any_method_witness :
  upstream_calls (trace (@_proxy_request Examples.online Examples.store_t_k
                                         Cases.get_query "GET"))
  = [Request "https://api.anthropic.com/v1/models?next=/messages"
             (Some (Examples.json_text "{'model': 'x', 'temperature': 0.2, 'top_k': 40}"))
             [] "GET"].
Proof.
  rewrite (@target_by_substring_any_method
             Examples.online Examples.store_t_k Cases.get_query "GET"
             "/v1/models?next=" "" Examples.messages_body eq_refl eq_refl).
  - reflexivity.
  - discriminate.
Defined.

(** ** The answer relayed *)

Lemma concat_cons_string (c : string) (cs : list string) :
  String.concat "" (c :: cs) = (c ++ String.concat "" cs)%string.
Proof.
  destruct cs as [|c' cs]; cbn [String.concat]; [|reflexivity].
  induction c as [|a c IH]; simpl; [reflexivity|]. now rewrite <- IH.
Qed.

Lemma written_app (t1 t2 : list event) : written (t1 ++ t2) = (written t1 ++ written t2)%string.
Proof.
  unfold written. rewrite flat_map_app.
  induction (flat_map (fun ev => match ev with WfileWrite b => [b] | _ => [] end) t1)
    as [|c cs IH]; [reflexivity|].
  cbn [app]. rewrite !concat_cons_string, IH.
  clear. induction c as [|a c IH]; simpl; [reflexivity|]. now rewrite IH.
Qed.

Lemma written_relay (cs : list bytes) : written (relay cs) = String.concat "" cs.
Proof.
  unfold written, relay. f_equal.
  induction cs as [|c cs IH]; cbn; [reflexivity|]. now rewrite IH.
Qed.

(** The loop over the reads: the chunks before the first read that is empty
    or raises are relayed; an empty read, or the end, ends the loop, and an
    exception leaves it. *)
Lemma stream_chunks (cs : list bytes) (rest : list (outcome bytes)) :
  Forall (fun c => c <> "") cs ->
  stream (map Return cs ++ rest) =
  (relay cs ++ trace (stream rest), result (stream rest)).
Proof.
  induction 1 as [|c cs Hc _ IH]; cbn [map app relay flat_map].
  - now destruct (stream rest).
  - cbn [stream]. cbn -[stream String.eqb]. apply String.eqb_neq in Hc. rewrite Hc.
    fold (relay cs). rewrite IH. cbn. reflexivity.
Qed.

Section Relay.
Context {RT : Runtime}.

Lemma written_headers (hs : list (string * string)) :
  written (map (fun kv => SendHeader (fst kv) (snd kv)) hs) = "".
Proof. unfold written. induction hs as [|kv hs IH]; cbn; auto. Qed.

Lemma no_hop_filtered (hs : list (string * string)) :
  forallb no_hop_header
          (map (fun kv => SendHeader (fst kv) (snd kv))
               (filter (fun kv => negb (in_tuple (lower (fst kv))
                                          ["transfer-encoding"; "connection"])) hs))
  = true.
Proof.
  induction hs as [|kv hs IH]; [reflexivity|]. cbn [filter].
  destruct (negb (in_tuple (lower (fst kv)) ["transfer-encoding"; "connection"])) eqn:Hk;
    [|exact IH].
  cbn [map forallb no_hop_header fst]. now rewrite Hk, IH.
Qed.

Lemma no_hop_stream (rs : list (outcome bytes)) :
  forallb no_hop_header (trace (stream rs)) = true.
Proof.
  induction rs as [|r rs IH]; cbn [stream]; [reflexivity|].
  destruct r as [chunk|e]; cbn; [|reflexivity].
  destruct (String.eqb chunk ""); cbn; [reflexivity|].
  unfold trace in IH. now destruct (stream rs).
Qed.

Ltac hop_solve H :=
  repeat first [ progress cbn [forallb no_hop_header andb app]
               | rewrite forallb_app
               | rewrite no_hop_filtered
               | rewrite H ];
  reflexivity.

Lemma forward_no_hop (req : request) : forallb no_hop_header (trace (forward req)) = true.
Proof.
  unfold forward. destruct (urlopen req) as [resp|e] eqn:Hup.
  - pose proof (no_hop_stream (reads resp)) as Hs. unfold trace in *.
    cbn -[send_headers stream json_dumps issubclass in_tuple]. rewrite send_headers_eq.
    destruct (stream (reads resp)) as [ts [[]|e]];
      cbn -[send_headers json_dumps issubclass in_tuple] in Hs |- *.
    + hop_solve Hs.
    + destruct e as [c msg|code msg hdrs content].
      * destruct (issubclass c Exception); cbn -[in_tuple json_dumps]; hop_solve Hs.
      * rewrite send_headers_eq. cbn -[in_tuple]. hop_solve Hs.
  - destruct e as [c msg|code msg hdrs content];
      cbn -[send_headers json_dumps issubclass in_tuple].
    + destruct (issubclass c Exception); reflexivity.
    + rewrite send_headers_eq. cbn -[in_tuple]. hop_solve Hup.
Qed.
End Relay.

(** X15.  An answer of the upstream whose reads succeed is relayed whole:
    its status whatever it is, its headers in order but for
    [Transfer-Encoding] and [Connection], then each chunk written and
    flushed before the next is read, up to the first empty read; the bytes
    written are the chunks end to end. *)
Theorem successful_answer_relayed {RT : Runtime} (req : request) (resp : response)
        (cs : list bytes) (rest : list (outcome bytes)) :
  urlopen req = Return resp ->
  Forall (fun c => c <> "") cs ->
  reads resp = map Return cs \/ reads resp = map Return cs ++ Return "" :: rest ->
  forward req =
  (Urlopen req :: SendResponse (status resp)
     :: map (fun kv => SendHeader (fst kv) (snd kv))
            (filter (fun kv => negb (in_tuple (lower (fst kv))
                                       ["transfer-encoding"; "connection"]))
                    (response_headers resp))
     ++ EndHeaders :: relay cs,
   Return tt)
  /\ written (trace (forward req)) = String.concat "" cs.
Proof.
  intros Hup Hcs Hreads.
  assert (Hstream : stream (reads resp) = (relay cs, Return tt)).
  { destruct Hreads as [-> | ->].
    - rewrite <- (app_nil_r (map Return cs)), (stream_chunks [] Hcs). cbn.
      now rewrite app_nil_r.
    - rewrite (stream_chunks _ Hcs). cbn. now rewrite app_nil_r. }
  assert (Hfwd : forward req =
                 (Urlopen req :: SendResponse (status resp)
                    :: map (fun kv => SendHeader (fst kv) (snd kv))
                           (filter (fun kv => negb (in_tuple (lower (fst kv))
                                                      ["transfer-encoding"; "connection"]))
                                   (response_headers resp))
                    ++ EndHeaders :: relay cs,
                  Return tt)).
  { unfold forward. rewrite Hup. cbn -[send_headers stream in_tuple].
    rewrite send_headers_eq, Hstream. cbn -[in_tuple]. reflexivity. }
  split; [exact Hfwd|]. rewrite Hfwd. unfold trace. cbn [fst].
  change (written (?a :: ?b :: ?l)) with (written l).
  rewrite written_app, written_headers.
  change (written (EndHeaders :: relay cs)) with (written (relay cs)).
  apply written_relay.
Qed.

Lemma successful_answer_relayed_witness :
  written (trace (@forward (Mini.runtime Cases.chunked Examples.no_files)
                           (Request "https://api.anthropic.com/v1/models" None [] "GET")))
  = "data: 1data: 2".
Proof.
  apply (@successful_answer_relayed
           (Mini.runtime Cases.chunked Examples.no_files)
           (Request "https://api.anthropic.com/v1/models" None [] "GET")
           (Response 201 [("Transfer-Encoding", "chunked"); ("X-Request-Id", "7")]
                     (map Return Cases.chunks ++ [Return ""; Return "never read"]))
           Cases.chunks [Return "never read"]).
  - reflexivity.
  - repeat constructor; discriminate.
  - right. reflexivity.
Defined.

(** X16.  A read that raises while the answer is streamed comes after the
    status, the headers and the chunks already relayed.  If the exception is
    an [Exception], the handler then sends its own 502 answer, status line,
    header and JSON body, after them on the same connection, and returns;
    if not, the exception leaves the handler. *)
Theorem failure_while_streaming {RT : Runtime} (req : request) (resp : response)
        (cs : list bytes) (c : exn_class) (msg : string) (rest : list (outcome bytes)) :
  urlopen req = Return resp ->
  Forall (fun b => b <> "") cs ->
  reads resp = map Return cs ++ Raise (Exc c msg) :: rest ->
  forward req =
  (Urlopen req :: SendResponse (status resp)
     :: map (fun kv => SendHeader (fst kv) (snd kv))
            (filter (fun kv => negb (in_tuple (lower (fst kv))
                                       ["transfer-encoding"; "connection"]))
                    (response_headers resp))
     ++ EndHeaders :: relay cs
     ++ (if issubclass c Exception
         then [Stdout (LError msg); SendResponse 502;
               SendHeader "Content-Type" "application/json"; EndHeaders;
               WfileWrite (json_dumps (PDict [("error", PStr msg)]))]
         else []),
   if issubclass c Exception then Return tt else Raise (Exc c msg)).
Proof.
  intros Hup Hcs Hreads.
  assert (Hstream : stream (reads resp) = (relay cs, Raise (Exc c msg))).
  { rewrite Hreads, (stream_chunks _ Hcs). cbn. now rewrite app_nil_r. }
  unfold forward. rewrite Hup. cbn -[send_headers stream in_tuple issubclass json_dumps].
  rewrite send_headers_eq, Hstream. cbn -[in_tuple issubclass json_dumps].
  destruct (issubclass c Exception); cbn -[in_tuple json_dumps].
  - now rewrite <- app_assoc.
  - now rewrite app_nil_r.
Qed.

Lemma failure_while_streaming_witness :
  @forward (Mini.runtime Cases.breaking_off Examples.no_files)
           (Request "https://api.anthropic.com/v1/messages" None [] "POST")
  = ([Urlopen (Request "https://api.anthropic.com/v1/messages" None [] "POST");
      SendResponse 200; SendHeader "Content-Type" "text/event-stream"; EndHeaders;
      WfileWrite "data: 1"; WfileFlush;
      Stdout (LError "timed out"); SendResponse 502;
      SendHeader "Content-Type" "application/json"; EndHeaders;
      WfileWrite (Examples.json_text "{'error': 'timed out'}")],
     Return tt).
Proof.
  exact (@failure_while_streaming
           (Mini.runtime Cases.breaking_off Examples.no_files)
           (Request "https://api.anthropic.com/v1/messages" None [] "POST")
           (Response 200 [("Content-Type", "text/event-stream"); ("connection", "keep-alive")]
                     [Return "data: 1"; Raise (Exc TimeoutError "timed out")])
           ["data: 1"] TimeoutError "timed out" []
           eq_refl
           ltac:(repeat constructor; discriminate)
           eq_refl).
Defined.

(** X17.  Whatever the upstream does, no [Transfer-Encoding] and no
    [Connection] header goes to the caller, in whatever letter case the
    upstream wrote the name. *)
Theorem forward_sends_no_hop_header {RT : Runtime} (req : request) (k v : string) :
  In (SendHeader k v) (trace (forward req)) ->
  lower k <> "transfer-encoding" /\ lower k <> "connection".
Proof.
  intros Hin.
  pose proof (proj1 (forallb_forall _ _) (forward_no_hop req) _ Hin) as Hk.
  cbn [no_hop_header] in Hk. apply negb_true_iff in Hk.
  unfold in_tuple in Hk. cbn in Hk.
  apply orb_false_iff in Hk as [H1 H2]. apply orb_false_iff in H2 as [H2 _].
  split; now apply String.eqb_neq.
Qed.

Lemma forward_sends_no_hop_header_witness :
  In (SendHeader "X-Request-Id" "7")
     (trace (@forward (Mini.runtime Cases.chunked Examples.no_files)
                      (Request "https://api.anthropic.com/v1/models" None [] "GET")))
  /\ lower "X-Request-Id" <> "transfer-encoding" /\ lower "X-Request-Id" <> "connection".
Proof.
  assert (Hin : In (SendHeader "X-Request-Id" "7")
                   (trace (@forward (Mini.runtime Cases.chunked Examples.no_files)
                                    (Request "https://api.anthropic.com/v1/models" None []
                                             "GET"))))
    by (vm_compute; auto 10).
  split; [exact Hin|].
  exact (@forward_sends_no_hop_header
           (Mini.runtime Cases.chunked Examples.no_files)
           (Request "https://api.anthropic.com/v1/models" None [] "GET")
           "X-Request-Id" "7" Hin).
Defined.

(** ** The rewriter's log and the keys it adds *)




Lemma inject_idempotent_witness :
  result (@_inject_sampling_params
            Examples.online Examples.store_t_k Examples.post_messages
            (Examples.json_text "{'model': 'x', 'temperature': 0.2, 'top_k': 40}"))
  = Return (Examples.json_text "{'model': 'x', 'temperature': 0.2, 'top_k': 40}")
  /\ change_log
       (trace (@_inject_sampling_params
                 Examples.online Examples.store_t_k Examples.post_messages
                 (Examples.json_text "{'model': 'x', 'temperature': 0.2, 'top_k': 40}")))
     = [].
Proof.
  apply (@inject_idempotent
           Examples.online Examples.store_t_k Examples.post_messages
           Examples.messages_body
           (Examples.json_text "{'model': 'x', 'temperature': 0.2, 'top_k': 40}")
           [("model", PStr "x"); ("temperature", PFloat 1)]).
  - reflexivity.
  - reflexivity.
  - intros p [<-|[<-|[<-|[]]]]; reflexivity.
  - reflexivity.
Defined.

Section KeysAdded.
Context {RT : Runtime}.
Variable g : globals.

(** The parameters the loop has to add: set in the store, absent from the
    body. *)
Lemma keys_fold_assign_exact (params : list string) :
  NoDup params ->
  forall data,
    keys (fold_left (assign g) params data) =
    keys data
    ++ filter (fun p => is_not_None (get (SAMPLING_CONFIG g) p)
                        && match dict_get p data with None => true | Some _ => false end)
              params.
Proof.
  induction 1 as [|p params Hnotin Hnd IH]; intros data; cbn [fold_left filter].
  - now rewrite app_nil_r.
  - rewrite IH.
    assert (Hsame : filter (fun q => is_not_None (get (SAMPLING_CONFIG g) q)
                                     && match dict_get q (assign g data p) with
                                        | None => true | Some _ => false end) params
                    = filter (fun q => is_not_None (get (SAMPLING_CONFIG g) q)
                                       && match dict_get q data with
                                          | None => true | Some _ => false end) params).
    { apply filter_ext_in. intros q Hq. unfold assign.
      destruct (is_not_None (get (SAMPLING_CONFIG g) p)); [|reflexivity].
      rewrite dict_get_set_other; [reflexivity|]. intros ->. contradiction. }
    rewrite Hsame. unfold assign.
    destruct (is_not_None (get (SAMPLING_CONFIG g) p)); cbn [andb]; [|reflexivity].
    rewrite keys_dict_set. destruct (dict_get p data); [reflexivity|].
    now rewrite <- app_assoc.
Qed.
End KeysAdded.

(** X20.  The loop never removes or moves a key of the body: the keys of the
    object it leaves are those of the body in their order, followed by the
    overrides that are set and that the body lacked, in the order
    [temperature], [top_p], [top_k]. *)
Theorem inject_loop_keys {RT : Runtime} (g : globals) (data data' : pydict)
        (t : list event) (modified : bool) :
  inject_loop g data = (t, Return (data', modified)) ->
  keys data' =
  keys data
  ++ filter (fun p => is_not_None (get (SAMPLING_CONFIG g) p)
                      && match dict_get p data with None => true | Some _ => false end)
            sampling_params.
Proof.
  intros Hloop.
  destruct (for_fold_inject g NoDup_sampling_params data false) as (_ & _ & Hres).
  fold (inject_loop g data) in Hres. rewrite Hloop in Hres. unfold result in Hres.
  cbn [snd] in Hres. injection Hres as -> _.
  exact (keys_fold_assign_exact g NoDup_sampling_params data).
Qed.

Lemma inject_loop_keys_witness :
  keys [("model", PStr "x"); ("temperature", PFloat 0.2); ("top_k", PInt 40)]
  = keys [("model", PStr "x"); ("temperature", PFloat 1)] ++ ["top_k"].
Proof.
  exact (@inject_loop_keys
           Examples.online Examples.store_t_k
           [("model", PStr "x"); ("temperature", PFloat 1)]
           [("model", PStr "x"); ("temperature", PFloat 0.2); ("top_k", PInt 40)]
           [Stdout (LInjected "temperature" (PFloat 1) (PFloat 0.2));
            Stdout (LInjected "top_k" PNone (PInt 40))]
           true eq_refl).
Defined.
